(** * Batch URL submission: [backend/indexing_script.py] and its history variants

    A shallow embedding of the submission engine of the repository:
    - [send_url] and [indexURL] of [backend/indexing_script.py]
      (module [IndexingScript]);
    - [send_url] and [indexURL] of
      [.history/backend/indexing_script_20251127145131.py]
      (module [History145131]);
    - [send_single_url] of
      [.history/backend/single_url_script_20251127125542.py]
      (module [SingleUrlScript]).

    Python [str] values are byte strings holding the UTF-8 encoding of the
    text; Python [int] values are [Z].  The network and the clock are not
    part of the program: a submission is run against an oracle that tells,
    for every attempt, what [session.post] does, and the run records the
    requests posted and the sleeps awaited. *)

From Stdlib Require Import String Ascii List ZArith Bool Lia Permutation DecimalString.
Import ListNotations.
Local Open Scope string_scope.
Local Open Scope Z_scope.

(** The quotation mark. The string literals of this file hold none: a
    text of the program that has quotation marks is written with an
    apostrophe in the place of each, and [literal] puts them back. *)
Definition quote : ascii := ascii_of_nat 34.

Fixpoint literal (s : string) : string :=
  match s with
  | EmptyString => EmptyString
  | String c rest => String (if Ascii.eqb c "'" then quote else c) (literal rest)
  end.

(** ** Exceptions and fallible computations *)

(** The exception classes the scripts raise or catch. [Unexpected] stands
    for every other subclass of [Exception] ([asyncio.TimeoutError],
    [aiohttp.ClientOSError], ...). *)
Inductive exn : Type :=
| ServerDisconnectedError
| JSONDecodeError
| KeyError (key : string)
| TypeError
| Unexpected (what : string).

Inductive outcome (A : Type) : Type :=
| Returned (a : A)
| Raised (e : exn).
Arguments Returned {A} a.
Arguments Raised {A} e.

Definition bind {A B : Type} (c : outcome A) (k : A -> outcome B) : outcome B :=
  match c with
  | Returned a => k a
  | Raised e => Raised e
  end.

Notation "x <- c ;; k" := (bind c (fun x => k))
  (at level 61, c at next level, right associativity).

(** [try: c except JSONDecodeError: h] *)
Definition except_JSONDecodeError {A : Type} (c : outcome A) (h : outcome A) : outcome A :=
  match c with
  | Raised JSONDecodeError => h
  | _ => c
  end.

(** ** Python strings *)

Module PyStr.

(** The characters for which [str.isspace] holds, as UTF-8 byte sequences:
    U+0009..U+000D, U+001C..U+001F, U+0020, U+0085, U+00A0, U+1680,
    U+2000..U+200A, U+2028, U+2029, U+202F, U+205F, U+3000. *)
Definition bytes (l : list nat) : string :=
  string_of_list_ascii (map ascii_of_nat l).

Definition whitespace : list string :=
  map bytes
    [ [9]; [10]; [11]; [12]; [13]; [28]; [29]; [30]; [31]; [32];
      [194; 133]; [194; 160]; [225; 154; 128];
      [226; 128; 128]; [226; 128; 129]; [226; 128; 130]; [226; 128; 131];
      [226; 128; 132]; [226; 128; 133]; [226; 128; 134]; [226; 128; 135];
      [226; 128; 136]; [226; 128; 137]; [226; 128; 138];
      [226; 128; 168]; [226; 128; 169]; [226; 128; 175];
      [226; 129; 159]; [227; 128; 128] ]%nat.

Fixpoint drop_prefix (p s : string) : option string :=
  match p, s with
  | EmptyString, _ => Some s
  | String a p', String b s' => if Ascii.eqb a b then drop_prefix p' s' else None
  | String _ _, EmptyString => None
  end.

(** Removes one leading white character, if there is one. *)
Fixpoint drop_space (ws : list string) (s : string) : option string :=
  match ws with
  | [] => None
  | w :: ws' =>
      match drop_prefix w s with
      | Some s' => Some s'
      | None => drop_space ws' s
      end
  end.

Fixpoint lstrip_loop (ws : list string) (fuel : nat) (s : string) : string :=
  match fuel with
  | O => s
  | S fuel' =>
      match drop_space ws s with
      | Some s' => lstrip_loop ws fuel' s'
      | None => s
      end
  end.

Definition rev (s : string) : string :=
  string_of_list_ascii (List.rev (list_ascii_of_string s)).

Definition lstrip (s : string) : string :=
  lstrip_loop whitespace (String.length s) s.

Definition rstrip (s : string) : string :=
  rev (lstrip_loop (map rev whitespace) (String.length s) (rev s)).

(** [s.strip()] *)
Definition strip (s : string) : string := rstrip (lstrip s).

(** [needle in s] for two strings *)
Fixpoint contains (needle s : string) : bool :=
  match drop_prefix needle s with
  | Some _ => true
  | None =>
      match s with
      | EmptyString => false
      | String _ s' => contains needle s'
      end
  end.

End PyStr.

(** ** JSON values and [json.loads] *)

Module Json.

(** A Python [float] read from a JSON text, kept as the literal it was read
    from: [FDec m e] is the decimal [m * 10^e] before it is rounded to a
    double. *)
Inductive pyfloat : Type :=
| FDec (m e : Z)
| FNaN
| FInf (negative : bool).

(** What [json.loads] builds. An object keeps its members in document
    order; as in a Python [dict], the last member of a name is the one
    that counts (see [dict_get]). *)
#[local] Unset Elimination Schemes.
Inductive json : Type :=
| JNull
| JBool (b : bool)
| JInt (z : Z)
| JFloat (f : pyfloat)
| JString (s : string)
| JArray (items : list json)
| JObject (members : list (string * json)).
#[local] Set Elimination Schemes.

(** [d.get(k)] *)
Fixpoint dict_get (k : string) (d : list (string * json)) : option json :=
  match d with
  | [] => None
  | (k', v) :: rest =>
      match dict_get k rest with
      | Some w => Some w
      | None => if String.eqb k k' then Some v else None
      end
  end.

(** [k in data]: membership for a dict, a list and a str; every other
    JSON value is not iterable. *)
Definition py_in (k : string) (data : json) : outcome bool :=
  match data with
  | JObject d => Returned (match dict_get k d with Some _ => true | None => false end)
  | JArray items =>
      Returned (existsb (fun v => match v with JString s => String.eqb s k | _ => false end) items)
  | JString s => Returned (PyStr.contains k s)
  | _ => Raised TypeError
  end.

(** [data[k]] for a string key [k] *)
Definition getitem (data : json) (k : string) : outcome json :=
  match data with
  | JObject d =>
      match dict_get k d with
      | Some v => Returned v
      | None => Raised (KeyError k)
      end
  | _ => Raised TypeError
  end.

(** [float(literal) == 429]: the double nearest to [m * 10^e] is 429
    exactly when [|m * 10^e - 429| <= 2^-45], half the gap between 429 and
    its neighbours (429 has an even significand, so both ties go to it). *)
Definition float_eq_429 (f : pyfloat) : bool :=
  match f with
  | FDec m e =>
      if 0 <=? e then m * 10 ^ e =? 429
      else Z.abs (m - 429 * 10 ^ (- e)) * 2 ^ 45 <=? 10 ^ (- e)
  | _ => false
  end.

(** [v == 429] *)
Definition eq_429 (v : json) : bool :=
  match v with
  | JInt z => z =? 429
  | JFloat f => float_eq_429 f
  | _ => false
  end.

(** *** The decoder

    [json.loads] of the Python standard library in its default (strict)
    mode, for a [str] argument. The RecursionError of very deep nestings
    and the digit limit of [int] are not modelled. *)

Definition is_ws (c : ascii) : bool :=
  match nat_of_ascii c with
  | 32%nat | 9%nat | 10%nat | 13%nat => true
  | _ => false
  end.

Fixpoint skip_ws (s : string) : string :=
  match s with
  | String c rest => if is_ws c then skip_ws rest else s
  | EmptyString => s
  end.

Definition digit_of (c : ascii) : option Z :=
  let n := nat_of_ascii c in
  if ((48 <=? n) && (n <=? 57))%nat then Some (Z.of_nat (n - 48)) else None.

Definition hex_of (c : ascii) : option Z :=
  let n := nat_of_ascii c in
  if ((48 <=? n) && (n <=? 57))%nat then Some (Z.of_nat (n - 48))
  else if ((65 <=? n) && (n <=? 70))%nat then Some (Z.of_nat (n - 55))
  else if ((97 <=? n) && (n <=? 102))%nat then Some (Z.of_nat (n - 87))
  else None.

(** Reads the longest run of digits at the head of [s], continuing the
    number [acc]; returns the number, how many digits were read and the
    rest. *)
Fixpoint digits (acc : Z) (count : Z) (s : string) : Z * Z * string :=
  match s with
  | String c rest =>
      match digit_of c with
      | Some d => digits (10 * acc + d) (count + 1) rest
      | None => (acc, count, s)
      end
  | EmptyString => (acc, count, s)
  end.

(** The integer part [0|[1-9][0-9]*]. *)
Definition int_part (s : string) : option (Z * string) :=
  match s with
  | String c rest =>
      match digit_of c with
      | Some 0 => Some (0, rest)
      | Some d => let '(n, _, rest') := digits d 1 rest in Some (n, rest')
      | None => None
      end
  | EmptyString => None
  end.

(** The optional fraction [\.[0-9]+]: the mantissa extended by the digits
    of the fraction, and their number. *)
Definition frac_part (n : Z) (s : string) : option (Z * Z * string) :=
  match s with
  | String "." (String c _ as rest) =>
      match digit_of c with
      | Some _ => Some (digits n 0 rest)
      | None => None
      end
  | _ => None
  end.

(** The optional exponent [[eE][-+]?[0-9]+]. *)
Definition exp_part (s : string) : option (Z * string) :=
  let unsigned (sign : Z) (t : string) :=
    match t with
    | String c _ =>
        match digit_of c with
        | Some _ => let '(n, _, rest) := digits 0 0 t in Some (sign * n, rest)
        | None => None
        end
    | EmptyString => None
    end in
  match s with
  | String c rest =>
      if (Ascii.eqb c "e" || Ascii.eqb c "E")%bool then
        match rest with
        | String "-" t => unsigned (-1) t
        | String "+" t => unsigned 1 t
        | _ => unsigned 1 rest
        end
      else None
  | EmptyString => None
  end.

(** [NUMBER_RE.match]: an [int] when the literal has neither fraction nor
    exponent, a [float] otherwise. *)
Definition match_number (s : string) : option (json * string) :=
  let '(sign, s1) :=
    match s with
    | String "-" t => (-1, t)
    | _ => (1, s)
    end in
  match int_part s1 with
  | None => None
  | Some (n, s2) =>
      match frac_part n s2, exp_part s2 with
      | None, None => Some (JInt (sign * n), s2)
      | None, Some (e, s3) => Some (JFloat (FDec (sign * n) e), s3)
      | Some (m, k, s3), _ =>
          match exp_part s3 with
          | None => Some (JFloat (FDec (sign * m) (- k)), s3)
          | Some (e, s4) => Some (JFloat (FDec (sign * m) (e - k)), s4)
          end
      end
  end.

(** [chr(cp)], UTF-8 encoded; a lone surrogate is written like any other
    three-byte character. *)
Definition chr (cp : Z) : string :=
  let byte (b : Z) := ascii_of_nat (Z.to_nat b) in
  let cont (b : Z) := byte (128 + b mod 64) in
  string_of_list_ascii
    (if cp <? 128 then [byte cp]
     else if cp <? 2048 then [byte (192 + cp / 64); cont cp]
     else if cp <? 65536 then [byte (224 + cp / 4096); cont (cp / 64); cont cp]
     else [byte (240 + cp / 262144); cont (cp / 4096); cont (cp / 64); cont cp]).

Definition hex4 (s : string) : option (Z * string) :=
  match s with
  | String a (String b (String c (String d rest))) =>
      match hex_of a, hex_of b, hex_of c, hex_of d with
      | Some x, Some y, Some z, Some w => Some (((x * 16 + y) * 16 + z) * 16 + w, rest)
      | _, _, _, _ => None
      end
  | _ => None
  end.

(** The text after a backslash: the characters the escape stands for and
    the rest of the input. *)
Definition unescape (s : string) : option (string * string) :=
  match s with
  | String c rest =>
      match nat_of_ascii c with
      | 34%nat | 92%nat | 47%nat => Some (String c "", rest)
      | 98%nat => Some (chr 8, rest)
      | 102%nat => Some (chr 12, rest)
      | 110%nat => Some (chr 10, rest)
      | 114%nat => Some (chr 13, rest)
      | 116%nat => Some (chr 9, rest)
      | 117%nat =>
          match hex4 rest with
          | None => None
          | Some (uni, rest') =>
              let low :=
                match rest' with
                | String "\" (String "u" t) => if (55296 <=? uni) && (uni <=? 56319) then hex4 t else None
                | _ => None
                end in
              match low with
              | Some (uni2, rest'') =>
                  if (56320 <=? uni2) && (uni2 <=? 57343)
                  then Some (chr (65536 + (uni - 55296) * 1024 + (uni2 - 56320)), rest'')
                  else Some (chr uni, rest')
              | None => Some (chr uni, rest')
              end
          end
      | _ => None
      end
  | EmptyString => None
  end.

(** [scanstring]: the input after an opening quote, up to and including
    the closing quote. *)
Fixpoint scanstring (fuel : nat) (s : string) : option (string * string) :=
  match fuel, s with
  | S fuel', String c rest =>
      if Ascii.eqb c quote then Some ("", rest)
      else if Ascii.eqb c "\" then
        match unescape rest with
        | Some (chunk, rest') =>
            match scanstring fuel' rest' with
            | Some (tail, rest'') => Some (chunk ++ tail, rest'')
            | None => None
            end
        | None => None
        end
      else if (nat_of_ascii c <? 32)%nat then None
      else
        match scanstring fuel' rest with
        | Some (tail, rest') => Some (String c tail, rest')
        | None => None
        end
  | _, _ => None
  end.

(** The input after a quotation mark, when [s] starts with one. *)
Definition after_quote (s : string) : option string :=
  match s with
  | String c rest => if Ascii.eqb c quote then Some rest else None
  | EmptyString => None
  end.

(** The members of an object, from the name of the first one on: the
    opening brace and the white space after it have been read. [scan] is
    [scan_once] one nesting level down. *)
Fixpoint members (scan : string -> option (json * string)) (fuel : nat) (s : string)
  : option (list (string * json) * string) :=
  match fuel, after_quote s with
  | S fuel', Some rest =>
      match scanstring (String.length rest) rest with
      | None => None
      | Some (key, s1) =>
          match skip_ws s1 with
          | String ":" s2 =>
              match scan (skip_ws s2) with
              | None => None
              | Some (value, s3) =>
                  match skip_ws s3 with
                  | String "}" s4 => Some ([(key, value)], s4)
                  | String "," s4 =>
                      match members scan fuel' (skip_ws s4) with
                      | Some (more, s5) => Some ((key, value) :: more, s5)
                      | None => None
                      end
                  | _ => None
                  end
              end
          | _ => None
          end
      end
  | _, _ => None
  end.

(** The items of a non-empty array, from its first value on. *)
Fixpoint items (scan : string -> option (json * string)) (fuel : nat) (s : string)
  : option (list json * string) :=
  match fuel with
  | O => None
  | S fuel' =>
      match scan s with
      | None => None
      | Some (value, s1) =>
          match skip_ws s1 with
          | String "]" s2 => Some ([value], s2)
          | String "," s2 =>
              match items scan fuel' (skip_ws s2) with
              | Some (more, s3) => Some (value :: more, s3)
              | None => None
              end
          | _ => None
          end
      end
  end.

Fixpoint scan_once (fuel : nat) (s : string) : option (json * string) :=
  match fuel with
  | O => None
  | S fuel' =>
      match s with
      | String "{" rest =>
          match skip_ws rest with
          | String "}" rest' => Some (JObject [], rest')
          | body =>
              match members (scan_once fuel') (String.length body) body with
              | Some (d, rest') => Some (JObject d, rest')
              | None => None
              end
          end
      | String "[" rest =>
          match skip_ws rest with
          | String "]" rest' => Some (JArray [], rest')
          | body =>
              match items (scan_once fuel') (String.length body) body with
              | Some (l, rest') => Some (JArray l, rest')
              | None => None
              end
          end
      | _ =>
          match after_quote s,
                PyStr.drop_prefix "null" s, PyStr.drop_prefix "true" s, PyStr.drop_prefix "false" s with
          | Some rest, _, _, _ =>
              match scanstring (String.length rest) rest with
              | Some (str, rest') => Some (JString str, rest')
              | None => None
              end
          | None, Some rest, _, _ => Some (JNull, rest)
          | None, _, Some rest, _ => Some (JBool true, rest)
          | None, _, _, Some rest => Some (JBool false, rest)
          | None, None, None, None =>
              match match_number s with
              | Some r => Some r
              | None =>
                  match PyStr.drop_prefix "NaN" s, PyStr.drop_prefix "Infinity" s,
                        PyStr.drop_prefix "-Infinity" s with
                  | Some rest, _, _ => Some (JFloat FNaN, rest)
                  | _, Some rest, _ => Some (JFloat (FInf false), rest)
                  | _, _, Some rest => Some (JFloat (FInf true), rest)
                  | None, None, None => None
                  end
              end
          end
      end
  end.

(** [json.loads(s)]: one value, white space allowed around it, nothing
    else. Nesting is never deeper than the text is long, so the fuel given
    to [scan_once] is never used up. *)
Definition loads (s : string) : outcome json :=
  match scan_once (S (String.length s)) (skip_ws s) with
  | Some (v, rest) =>
      match skip_ws rest with
      | EmptyString => Returned v
      | _ => Raised JSONDecodeError
      end
  | None => Raised JSONDecodeError
  end.

End Json.

(** ** The network, the clock and the event loop *)

(** The keyword arguments of [session.post]. [timeout] is [None] when the
    call passes none (the client's default then applies), [Some t] for
    [timeout=aiohttp.ClientTimeout(total=t)]. *)
Record request : Type := {
  method : string;
  endpoint : string;
  json : list (string * string);
  headers : list (string * string);
  ssl : bool;
  timeout : option Z
}.

(** What one [async with session.post(...) as response] with its
    [await response.text()] does: it yields the body, or it raises. *)
Inductive event : Type :=
| Reply (text : string)
| Throw (e : exn).

(** The answers of the network to the attempts of one submission, by
    attempt number (from 0). *)
Definition oracle : Type := nat -> event.

(** What a submission does to the outside. *)
Inductive effect : Type :=
| Post (r : request)
| Sleep (seconds : Z).

Definition is_post (e : effect) : bool :=
  match e with Post _ => true | Sleep _ => false end.

(** Number of requests sent. *)
Definition posts (tr : list effect) : nat := length (filter is_post tr).

(** The sleeps, in order. *)
Definition sleeps (tr : list effect) : list Z :=
  flat_map (fun e => match e with Sleep s => [s] | Post _ => [] end) tr.

(** The requests sent, in order. *)
Definition requests (tr : list effect) : list request :=
  flat_map (fun e => match e with Post r => [r] | Sleep _ => [] end) tr.

(** A finished coroutine: how it ended and what it did. *)
Definition run (A : Type) : Type := (outcome A * list effect)%type.

(** [await asyncio.gather] of the tasks: the results in the order of the tasks,
    or an exception when a task raised. When several tasks raise, the one
    that raises first in time wins; the model names the leftmost. *)
Fixpoint gather {A : Type} (tasks : list (outcome A)) : outcome (list A) :=
  match tasks with
  | [] => Returned []
  | t :: rest =>
      a <- t ;;
      l <- gather rest ;;
      Returned (a :: l)
  end.

(** [[f(i, x) for i, x in enumerate(l)]], counting from [i]. *)
Fixpoint enumerate_map {A B : Type} (f : nat -> A -> B) (i : nat) (l : list A) : list B :=
  match l with
  | [] => []
  | x :: rest => f i x :: enumerate_map f (S i) rest
  end.

(** What a batch reports: [len(urls)] and the three counters. *)
Record tally : Type := {
  total : Z;
  successful : Z;
  rateLimited : Z;
  otherFailed : Z
}.

Definition ENDPOINT : string :=
  "https://indexing.googleapis.com/v3/urlNotifications:publish".

(** The [content] dictionary of every variant. *)
Definition content (url : string) : list (string * string) :=
  [("url", PyStr.strip url); ("type", "URL_UPDATED")].

(** The loop counters of [indexURL]. *)
Record counters : Type := {
  successful_urls : Z;
  error_429_count : Z;
  other_errors_count : Z
}.

Definition zero : counters :=
  {| successful_urls := 0; error_429_count := 0; other_errors_count := 0 |}.

Definition add_successful (c : counters) : counters :=
  {| successful_urls := successful_urls c + 1;
     error_429_count := error_429_count c;
     other_errors_count := other_errors_count c |}.

Definition add_429 (c : counters) : counters :=
  {| successful_urls := successful_urls c;
     error_429_count := error_429_count c + 1;
     other_errors_count := other_errors_count c |}.

Definition add_other (c : counters) : counters :=
  {| successful_urls := successful_urls c;
     error_429_count := error_429_count c;
     other_errors_count := other_errors_count c + 1 |}.

Definition report (urls : list string) (c : counters) : tally :=
  {| total := Z.of_nat (length urls);
     successful := successful_urls c;
     rateLimited := error_429_count c;
     otherFailed := other_errors_count c |}.

(** The body of the loop over [results] that all variants of [indexURL]
    share:
<<
    if "error" in data:
        if data["error"]["code"] == 429: error_429_count += 1
        else: other_errors_count += 1
    else: successful_urls += 1
>> *)
Definition count_data (c : counters) (data : Json.json) : outcome counters :=
  has_error <- Json.py_in "error" data ;;
  if has_error : bool then
    error <- Json.getitem data "error" ;;
    code <- Json.getitem error "code" ;;
    if Json.eq_429 code then Returned (add_429 c) else Returned (add_other c)
  else Returned (add_successful c).

(** ** The process: arguments, files and the console *)

(** What a script does besides returning: [M] is the type of the lines it
    prints. A [Batch] is one [asyncio.run] of a coroutine that submits
    [urls], with what each submission did. *)
Inductive action (M : Type) : Type :=
| Say (line : M)
| CreateTemp (name : string)
| Dump (data : Json.json) (name : string)
| CloseFile (name : string)
| Unlink (path : string)
| Authenticate (key_file : string)
| Batch (urls : list string) (traces : list (list effect))
| Wait (seconds : Z).
Arguments Say {M} line.
Arguments CreateTemp {M} name.
Arguments Dump {M} data name.
Arguments CloseFile {M} name.
Arguments Unlink {M} path.
Arguments Authenticate {M} key_file.
Arguments Batch {M} urls traces.
Arguments Wait {M} seconds.

(** What the scripts read from outside.
    - [read_csv path] is [pd.read_csv(path)["URL"].tolist()], a list of
      strings (a column with cells that are not strings is outside the
      model);
    - [access_token key_file] is
      [ServiceAccountCredentials.from_json_keyfile_name(key_file,
      scopes=SCOPES).get_access_token().access_token];
    - [NamedTemporaryFile] is the name of the file that
      [tempfile.NamedTemporaryFile(mode='w', suffix='.json', delete=False)]
      creates;
    - [network b i] answers the submission of the [i]-th URL of the [b]-th
      batch the process runs. *)
Record process : Type := {
  argv : list string;
  path_exists : string -> bool;
  getenv : string -> option string;
  NamedTemporaryFile : outcome string;
  read_csv : string -> outcome (list string);
  access_token : string -> outcome string;
  network : nat -> nat -> oracle;
  os_unlink : string -> outcome unit
}.

(** A computation that prints and acts, and returns or raises. *)
Definition io (M A : Type) : Type := (outcome A * list (action M))%type.

Definition ret {M A : Type} (a : A) : io M A := (Returned a, []).

Definition lift {M A : Type} (o : outcome A) : io M A := (o, []).

Definition act {M : Type} (a : action M) : io M unit := (Returned tt, [a]).

Definition iobind {M A B : Type} (c : io M A) (k : A -> io M B) : io M B :=
  match c with
  | (Returned a, done) => let (r, more) := k a in (r, (done ++ more)%list)
  | (Raised e, done) => (Raised e, done)
  end.

Notation "x <~ c ;; k" := (iobind c (fun x => k))
  (at level 61, c at next level, right associativity).
Notation "c ;; k" := (iobind c (fun _ => k))
  (at level 61, right associativity).

(** [try: body except Exception as e: handler(e)] *)
Definition try_except {M A : Type} (body : io M A) (handler : exn -> io M A) : io M A :=
  match body with
  | (Returned a, done) => (Returned a, done)
  | (Raised e, done) => let (r, more) := handler e in (r, (done ++ more)%list)
  end.

(** [try: body finally: final] *)
Definition try_finally {M A : Type} (body : io M A) (final : io M unit) : io M A :=
  let (r, done) := body in
  match final with
  | (Returned _, more) => (r, (done ++ more)%list)
  | (Raised e, more) => (Raised e, (done ++ more)%list)
  end.

(** Truth value of an optional string: [None] and the empty string are
    false. *)
Definition truthy (s : option string) : option string :=
  match s with
  | Some (String c rest) => s
  | _ => None
  end.

(** The files unlinked, the batches run and the sleeps of a process. *)
Definition unlinked {M : Type} (log : list (action M)) : list string :=
  flat_map (fun a => match a with Unlink p => [p] | _ => [] end) log.

Definition batches {M : Type} (log : list (action M)) : list (list string) :=
  flat_map (fun a => match a with Batch urls _ => [urls] | _ => [] end) log.

Definition waits {M : Type} (log : list (action M)) : list Z :=
  flat_map (fun a => match a with Wait s => [s] | _ => [] end) log.

Definition authentications {M : Type} (log : list (action M)) : list string :=
  flat_map (fun a => match a with Authenticate f => [f] | _ => [] end) log.

(** ** [backend/indexing_script.py] *)

Module IndexingScript.

Definition post_request (http url : string) : request :=
  {| method := "POST";
     endpoint := ENDPOINT;
     json := content url;
     headers := [("Authorization", "Bearer " ++ http)];
     ssl := false;
     timeout := None |}.

Definition server_disconnected : string :=
  literal "{'error': {'code': 500, 'message': 'Server Disconnected'}}".

(** The [for _ in range(3)] loop of [send_url], over the iterations that
    are left. *)
Fixpoint send_url_loop (session : oracle) (r : request) (attempts : list nat) : run string :=
  match attempts with
  | [] => (Returned server_disconnected, [])
  | attempt :: rest =>
      match session attempt with
      | Reply text => (Returned text, [Post r])
      | Throw ServerDisconnectedError =>
          let (result, tr) := send_url_loop session r rest in
          (result, Post r :: Sleep 2 :: tr)
      | Throw e => (Raised e, [Post r])
      end
  end.

Definition send_url (session : oracle) (http url : string) : run string :=
  send_url_loop session (post_request http url) (seq 0 3).

(** One turn of [for result in results]. *)
Definition count_result (c : counters) (result : string) : outcome counters :=
  data <- Json.loads result ;;
  count_data c data.

Fixpoint count_results (c : counters) (results : list string) : outcome counters :=
  match results with
  | [] => Returned c
  | result :: rest =>
      c' <- count_result c result ;;
      count_results c' rest
  end.

(** [indexURL(http, urls)] against a network that answers the submission
    of the [i]-th URL as [net i]: the counters it prints, and what each
    task did. When the batch raises, tasks still running are abandoned
    and the traces only bound what they did. *)
Definition indexURL (net : nat -> oracle) (http : string) (urls : list string)
  : outcome tally * list (list effect) :=
  let tasks := enumerate_map (fun i url => send_url (net i) http url) 0%nat urls in
  (results <- gather (map fst tasks) ;;
   c <- count_results zero results ;;
   Returned (report urls c),
   map snd tasks).

(** The lines [indexURL], [get_account_path] and [main] print (the progress
    bar and the [Error for URL] lines of [indexURL] are left out). *)
Inductive line : Type :=
| Processing (n : nat)                 (* Processing n URLs... *)
| Completed (t : tally)                (* Completed: ... successful, ... *)
| ErrorCreatingTemp (e : exn)          (* Error creating temp account file: e *)
| NoCsvFileProvided                    (* Error: No CSV file provided *)
| CsvNotFound (csv_file : string)      (* Error: csv_file not found! *)
| NoServiceAccount                     (* Error: No Google Service Account ... *)
| UsingAccountFile (path : string)     (* Using account file: path *)
| Loaded (n : nat)                     (* Loaded n URLs from CSV *)
| ErrorReadingCsv (e : exn)            (* Error reading CSV: e *)
| StartingIndexing                     (* Starting indexing... *)
| IndexingCompleted                    (* Indexing process completed! *)
| IndexingFailed (e : exn)             (* Indexing failed: e *)
| CleanedUp.                           (* Temporary account file cleaned up *)

(** [asyncio.run(indexURL(http, urls))] as the [b]-th batch of the
    process. *)
Definition run_indexURL (w : process) (b : nat) (http : string) (urls : list string)
  : io line unit :=
  act (Say (Processing (length urls))) ;;
  act (Batch urls (snd (indexURL (network w b) http urls))) ;;
  t <~ lift (fst (indexURL (network w b) http urls)) ;;
  act (Say (Completed t)).

(** [setup_http_client(account_path)] *)
Definition setup_http_client (w : process) (account_path : string) : io line string :=
  act (Authenticate account_path) ;;
  lift (access_token w account_path).

(** The last resort of [get_account_path]: the local file. *)
Definition local_account_file (w : process) : option string :=
  if path_exists w "account1.json" then Some "account1.json" else None.

Definition get_account_path (w : process) : io line (option string) :=
  match argv w with
  | _ :: _ :: account :: _ => ret (Some account)
  | _ =>
      match truthy (getenv w "GOOGLE_SERVICE_ACCOUNT_JSON") with
      | Some env_json =>
          try_except
            (temp_file <~ lift (NamedTemporaryFile w) ;;
             act (CreateTemp temp_file) ;;
             data <~ lift (Json.loads env_json) ;;
             act (Dump data temp_file) ;;
             act (CloseFile temp_file) ;;
             ret (Some temp_file))
            (fun e =>
               act (Say (ErrorCreatingTemp e)) ;;
               ret (local_account_file w))
      | None => ret (local_account_file w)
      end
  end.

(** The [finally] block of [main]. *)
Definition cleanup (w : process) (account_file : string) : io line unit :=
  match PyStr.drop_prefix "/tmp" account_file, PyStr.contains "temp" account_file with
  | None, false => ret tt
  | _, _ =>
      try_except
        (act (Unlink account_file) ;;
         lift (os_unlink w account_file) ;;
         act (Say CleanedUp))
        (fun _ => ret tt)
  end.

(** The [try] statement of [main] with its [except] and [finally]
    blocks. *)
Definition index_all (w : process) (account_file : string) (all_urls : list string)
  : io line unit :=
  try_finally
    (try_except
       (http <~ setup_http_client w account_file ;;
        run_indexURL w 0 http all_urls ;;
        act (Say IndexingCompleted))
       (fun e => act (Say (IndexingFailed e))))
    (cleanup w account_file).

Definition main (w : process) : io line unit :=
  match argv w with
  | _ :: csv_file :: _ =>
      if path_exists w csv_file then
        found <~ get_account_path w ;;
        match truthy found with
        | None => act (Say NoServiceAccount)
        | Some account_file =>
            act (Say (UsingAccountFile account_file)) ;;
            loaded <~ try_except
                        (all_urls <~ lift (read_csv w csv_file) ;;
                         act (Say (Loaded (length all_urls))) ;;
                         ret (Some all_urls))
                        (fun e => act (Say (ErrorReadingCsv e)) ;; ret None) ;;
            match loaded with
            | None => ret tt
            | Some all_urls =>
                act (Say StartingIndexing) ;;
                index_all w account_file all_urls
            end
        end
      else act (Say (CsvNotFound csv_file))
  | _ => act (Say NoCsvFileProvided)
  end.

End IndexingScript.

(** ** [.history/backend/indexing_script_20251127145131.py] *)

Module History145131.

Definition post_request (http url : string) : request :=
  {| method := "POST";
     endpoint := ENDPOINT;
     json := content url;
     headers := [("Authorization", "Bearer " ++ http)];
     ssl := false;
     timeout := Some 30 |}.

Definition server_disconnected : string :=
  literal "{'error': {'code': 500, 'message': 'Server Disconnected after multiple retries'}}".

(** [for attempt in range(3)]: a disconnection sleeps (except after the
    last attempt) and continues, any other exception breaks out of the
    loop. *)
Fixpoint send_url_loop (session : oracle) (r : request) (attempts : list nat) : run string :=
  match attempts with
  | [] => (Returned server_disconnected, [])
  | attempt :: rest =>
      match session attempt with
      | Reply text => (Returned text, [Post r])
      | Throw ServerDisconnectedError =>
          let (result, tr) := send_url_loop session r rest in
          (result, Post r :: (if (attempt <? 2)%nat then [Sleep 2] else []) ++ tr)
      | Throw _ => (Returned server_disconnected, [Post r])
      end
  end.

Definition send_url (session : oracle) (http url : string) : run string :=
  send_url_loop session (post_request http url) (seq 0 3).

(** One turn of [for result in results], with its
    [except json.JSONDecodeError]. *)
Definition count_result (c : counters) (result : string) : outcome counters :=
  except_JSONDecodeError
    (data <- Json.loads result ;;
     count_data c data)
    (Returned (add_other c)).

Fixpoint count_results (c : counters) (results : list string) : outcome counters :=
  match results with
  | [] => Returned c
  | result :: rest =>
      c' <- count_result c result ;;
      count_results c' rest
  end.

Definition indexURL (net : nat -> oracle) (http : string) (urls : list string)
  : outcome tally * list (list effect) :=
  let tasks := enumerate_map (fun i url => send_url (net i) http url) 0%nat urls in
  (results <- gather (map fst tasks) ;;
   c <- count_results zero results ;;
   Returned (report urls c),
   map snd tasks).

Definition URLS_PER_ACCOUNT : nat := 200.

(** The lines [setup_http_client], [indexURL] and [main] print (the
    progress lines of [indexURL] and the rules of [main] are left out). *)
Inductive line : Type :=
| AuthenticationSuccessful (key_file : string)
| AuthenticationFailed (key_file : string) (e : exn)
| Processing (n : nat)                        (* Processing n URLs... *)
| AccountSummary (t : tally)                  (* Account Summary: ... *)
| DataCsvNotFound                             (* Error: data.csv file not found! *)
| Loaded (n : nat)                            (* Loaded n URLs from data.csv *)
| ErrorReading (e : exn)                      (* Error reading data.csv: e *)
| ProcessingAccount (account_num : nat)       (* Processing URLs for Account n... *)
| KeyFileNotFound (key_file : string)         (* Error: f not found! Skipping account... *)
| NoMoreUrls                                  (* No more URLs to process for this account *)
| UrlsToProcess (n : nat)                     (* URLs to process: n *)
| Waiting                                     (* Waiting 5 seconds before next account... *)
| ErrorProcessing (account_num : nat) (e : exn)   (* Error processing Account n: e *)
| FinalSummary (processed : nat) (totals : counters)
| SuccessRate (successful : Z) (processed : nat). (* Success Rate: s / p * 100 *)

(** [setup_http_client(json_key_file)]: prints and re-raises. *)
Definition setup_http_client (w : process) (json_key_file : string) : io line string :=
  try_except
    (act (Authenticate json_key_file) ;;
     token <~ lift (access_token w json_key_file) ;;
     act (Say (AuthenticationSuccessful json_key_file)) ;;
     ret token)
    (fun e =>
       act (Say (AuthenticationFailed json_key_file e)) ;;
       lift (Raised e)).

(** [asyncio.run(indexURL(http, urls))] as the [b]-th batch of the
    process. *)
Definition run_indexURL (w : process) (b : nat) (http : string) (urls : list string)
  : io line tally :=
  act (Say (Processing (length urls))) ;;
  act (Batch urls (snd (indexURL (network w b) http urls))) ;;
  t <~ lift (fst (indexURL (network w b) http urls)) ;;
  act (Say (AccountSummary t)) ;;
  ret t.

(** [f"account{account_num}.json"] *)
Definition key_file (account_num : nat) : string :=
  "account" ++ NilEmpty.string_of_uint (Nat.to_uint account_num) ++ ".json".

(** [all_urls[start_index:end_index]] for the account of index [i]. *)
Definition urls_for_account (all_urls : list string) (i : nat) : list string :=
  firstn URLS_PER_ACCOUNT (skipn (i * URLS_PER_ACCOUNT) all_urls).

Definition add_totals (totals : counters) (t : tally) : counters :=
  {| successful_urls := successful_urls totals + successful t;
     error_429_count := error_429_count totals + rateLimited t;
     other_errors_count := other_errors_count totals + otherFailed t |}.

(** The [try] statement of the loop of [main], for the account of index
    [i]: the totals after it. *)
Definition account (w : process) (num_accounts : Z) (i : nat) (urls : list string)
  (totals : counters) : io line counters :=
  try_except
    (http <~ setup_http_client w (key_file (S i)) ;;
     t <~ run_indexURL w i http urls ;;
     (if Z.of_nat i <? num_accounts - 1
      then act (Say Waiting) ;; act (Wait 5)
      else ret tt) ;;
     ret (add_totals totals t))
    (fun e =>
       act (Say (ErrorProcessing (S i) e)) ;;
       ret totals).

(** [for i in range(num_accounts)], over the indices that are left; the
    three totals are the state of the loop. *)
Fixpoint accounts (w : process) (num_accounts : Z) (all_urls : list string)
  (indices : list nat) (totals : counters) : io line counters :=
  match indices with
  | [] => ret totals
  | i :: rest =>
      let account_num := S i in
      let json_key_file := key_file account_num in
      act (Say (ProcessingAccount account_num)) ;;
      if path_exists w json_key_file then
        match urls_for_account all_urls i with
        | [] => act (Say NoMoreUrls) ;; ret totals
        | urls =>
            act (Say (UrlsToProcess (length urls))) ;;
            totals' <~ account w num_accounts i urls totals ;;
            accounts w num_accounts all_urls rest totals'
        end
      else
        act (Say (KeyFileNotFound json_key_file)) ;;
        accounts w num_accounts all_urls rest totals
  end.

(** [(total_successful / len(all_urls)) * 100]: the quotient is a float
    and is not computed here; the division raises when the list is
    empty. *)
Definition success_rate (total_successful : Z) (processed : nat) : outcome line :=
  match processed with
  | O => Raised (Unexpected "ZeroDivisionError")
  | S _ => Returned (SuccessRate total_successful processed)
  end.

Definition main (w : process) (num_accounts : Z) : io line unit :=
  if path_exists w "data.csv" then
    loaded <~ try_except
                (all_urls <~ lift (read_csv w "data.csv") ;;
                 act (Say (Loaded (length all_urls))) ;;
                 ret (Some all_urls))
                (fun e => act (Say (ErrorReading e)) ;; ret None) ;;
    match loaded with
    | None => ret tt
    | Some all_urls =>
        totals <~ accounts w num_accounts all_urls (seq 0 (Z.to_nat num_accounts)) zero ;;
        act (Say (FinalSummary (length all_urls) totals)) ;;
        if 0 <? successful_urls totals then
          rate <~ lift (success_rate (successful_urls totals) (length all_urls)) ;;
          act (Say rate)
        else ret tt
    end
  else act (Say DataCsvNotFound).

End History145131.

(** ** [.history/backend/single_url_script_20251127125542.py] *)

Module SingleUrlScript.

Definition post_request (http url : string) : request :=
  {| method := "POST";
     endpoint := ENDPOINT;
     json := content url;
     headers := [("Authorization", "Bearer " ++ http)];
     ssl := false;
     timeout := None |}.

(** How the [try] block of one attempt ends when nothing is raised. *)
Inductive verdict : Type :=
| Success          (* no ["error"] in the data: [return True] *)
| Error429         (* slept [(attempt + 1) * 5], falls out of the [try] *)
| ErrorOther.      (* slept 2 when [attempt < 2], falls out of the [try] *)

(** The [try] block up to the sleeps. *)
Definition attempt_body (ev : event) : outcome verdict :=
  match ev with
  | Throw e => Raised e
  | Reply response_text =>
      data <- Json.loads response_text ;;
      has_error <- Json.py_in "error" data ;;
      if has_error : bool then
        error <- Json.getitem data "error" ;;
        error_msg <- Json.getitem error "message" ;;
        code <- Json.getitem error "code" ;;
        if Json.eq_429 code then Returned Error429 else Returned ErrorOther
      else Returned Success
  end.

(** The sleep of one failed attempt: in the [try] block for an error
    body, in the handler for an exception. *)
Definition pause (attempt : nat) (v : outcome verdict) : list effect :=
  let n := Z.of_nat attempt in
  match v with
  | Returned Success => []
  | Returned Error429 => [Sleep ((n + 1) * 5)]
  | Raised ServerDisconnectedError => if n <? 2 then [Sleep ((n + 1) * 2)] else []
  | Returned ErrorOther | Raised _ => if n <? 2 then [Sleep 2] else []
  end.

Fixpoint send_single_url_loop (session : oracle) (r : request) (attempts : list nat) : run bool :=
  match attempts with
  | [] => (Returned false, [])
  | attempt :: rest =>
      match attempt_body (session attempt) with
      | Returned Success => (Returned true, [Post r])
      | v =>
          let (result, tr) := send_single_url_loop session r rest in
          (result, Post r :: pause attempt v ++ tr)
      end
  end.

Definition send_single_url (session : oracle) (http url : string) : run bool :=
  send_single_url_loop session (post_request http url) (seq 0 3).

(** The lines of [setup_http_client] and [main] (those of
    [send_single_url] are left out). *)
Inductive line : Type :=
| AuthenticationSuccessful (key_file : string)
| AuthenticationFailed (e : exn)
| SingleUrlCsvNotFound                  (* Error: single_url.csv file not found! *)
| ProcessingSingleUrl (url : string)    (* Processing single URL: url *)
| ErrorReading (e : exn)                (* Error reading single_url.csv: e *)
| KeyFileNotFound (key_file : string)   (* Error: account1.json not found! *)
| IndexingSucceeded                     (* Single URL indexing completed successfully! *)
| IndexingFailed                        (* Single URL indexing failed! *)
| ErrorDuringIndexing (e : exn).        (* Error during indexing: e *)

Definition setup_http_client (w : process) (json_key_file : string) : io line string :=
  try_except
    (act (Authenticate json_key_file) ;;
     token <~ lift (access_token w json_key_file) ;;
     act (Say (AuthenticationSuccessful json_key_file)) ;;
     ret token)
    (fun e =>
       act (Say (AuthenticationFailed e)) ;;
       lift (Raised e)).

(** [asyncio.run(index_single_url(http, url))] *)
Definition index_single_url (w : process) (http url : string) : io line bool :=
  act (Batch [url] [snd (send_single_url (network w 0%nat 0%nat) http url)]) ;;
  lift (fst (send_single_url (network w 0%nat 0%nat) http url)).

(** [df["URL"].iloc[0]] *)
Definition iloc0 (column : list string) : outcome string :=
  match column with
  | url :: _ => Returned url
  | [] => Raised (Unexpected "IndexError")
  end.

Definition main (w : process) : io line bool :=
  if path_exists w "single_url.csv" then
    read <~ try_except
              (column <~ lift (read_csv w "single_url.csv") ;;
               url <~ lift (iloc0 column) ;;
               act (Say (ProcessingSingleUrl url)) ;;
               ret (Some url))
              (fun e => act (Say (ErrorReading e)) ;; ret None) ;;
    match read with
    | None => ret false
    | Some url =>
        let json_key_file := "account1.json" in
        if path_exists w json_key_file then
          try_except
            (http <~ setup_http_client w json_key_file ;;
             success <~ index_single_url w http url ;;
             act (Say (if success : bool then IndexingSucceeded else IndexingFailed)) ;;
             ret success)
            (fun e => act (Say (ErrorDuringIndexing e)) ;; ret false)
        else act (Say (KeyFileNotFound json_key_file)) ;; ret false
    end
  else act (Say SingleUrlCsvNotFound) ;; ret false.

End SingleUrlScript.

(** ** Vocabulary of the statements *)

(** The response shape the scripts expect: a JSON object without an
    ["error"] member, or with one that is an object with a ["code"]. *)
Definition well_shaped (body : string) : bool :=
  match Json.loads body with
  | Returned (Json.JObject d) =>
      match Json.dict_get "error" d with
      | None => true
      | Some (Json.JObject e) =>
          match Json.dict_get "code" e with
          | Some _ => true
          | None => false
          end
      | Some _ => false
      end
  | _ => false
  end.

(** A body of the shape [{"error": {"code": n, ...}}]. *)
Definition error_body (n : Z) (body : string) : Prop :=
  exists d e,
    Json.loads body = Returned (Json.JObject d) /\
    Json.dict_get "error" d = Some (Json.JObject e) /\
    Json.dict_get "code" e = Some (Json.JInt n).

(** A body as the API sends it,
    [{"error": {"code": n, "message": ...}}]. *)
Definition api_error_body (n : Z) (body : string) : Prop :=
  exists d e msg,
    Json.loads body = Returned (Json.JObject d) /\
    Json.dict_get "error" d = Some (Json.JObject e) /\
    Json.dict_get "code" e = Some (Json.JInt n) /\
    Json.dict_get "message" e = Some msg.

(** The counters of a finished aggregation, if it finished. *)
Definition counts (o : outcome counters) : option counters :=
  match o with
  | Returned c => Some c
  | Raised _ => None
  end.

Definition sum (c : counters) : Z :=
  successful_urls c + error_429_count c + other_errors_count c.

Definition plus (c d : counters) : counters :=
  {| successful_urls := successful_urls c + successful_urls d;
     error_429_count := error_429_count c + error_429_count d;
     other_errors_count := other_errors_count c + other_errors_count d |}.

(** Sample inputs. *)
Definition p1 : string := "https://a.example/p1".
Definition token : string := "ya29.token".
Definition rate_limited_body : string := literal "{'error':{'code':429,'message':'x'}}".
Definition denied_body : string := literal "{'error':{'code':403,'message':'denied'}}".
Definition codeless_body : string := literal "{'error':{'message':'denied'}}".
Definition success_body : string :=
  literal "{'urlNotificationMetadata': {'url': 'https://a.example/p1'}}".

Definition p2 : string := "https://a.example/p2".

(** [p1] between a tab, spaces and a line feed. *)
Definition padded_p1 : string :=
  String (ascii_of_nat 9) " https://a.example/p1 " ++ String (ascii_of_nat 10) "".

Definition always (ev : event) : oracle := fun _ => ev.

(** A batch in which the first URL is answered and the submission of the
    second raises [ev]. *)
Definition second_fails (ev : event) : nat -> oracle :=
  fun i => always (if (i =? 0)%nat then Reply success_body else ev).

(** The scenario of the specification: success for the first URL, a 403
    for the second. *)
Definition scenario : nat -> oracle :=
  fun i => always (Reply (if (i =? 0)%nat then success_body else denied_body)).

(** Total time slept. *)
Definition total_sleep (tr : list effect) : Z := fold_right Z.add 0 (sleeps tr).

(** A body in which the scripts find no error: it parses, and
    ["error" in data] is false. *)
Definition no_error_body (body : string) : Prop :=
  exists data, Json.loads body = Returned data /\ Json.py_in "error" data = Returned false.

Definition is_returned {A : Type} (o : outcome A) : bool :=
  match o with
  | Returned _ => true
  | Raised _ => false
  end.

(** A transport that disconnects [n] times and then answers [body]. *)
Definition flaky (n : nat) (body : string) : oracle :=
  fun attempt => if (attempt <? n)%nat then Throw ServerDisconnectedError else Reply body.

(** The history variant counts [theirs] as the current script counts
    [ours], whenever the current script counts it. *)
Definition counted_alike (ours theirs : string) : Prop :=
  forall c c',
    IndexingScript.count_result c ours = Returned c' ->
    History145131.count_result c theirs = Returned c'.

(** [v == "error"] *)
Definition is_error_string (v : Json.json) : bool :=
  match v with
  | Json.JString s => String.eqb s "error"
  | _ => false
  end.

(** A run of [backend/indexing_script.py] with a CSV file of two URLs
    and a key file under [/tmp], against the scenario of the
    specification. *)
Definition cli : process :=
  {| argv := ["indexing_script.py"; "urls.csv"; "/tmp/key.json"];
     path_exists := fun path => String.eqb path "urls.csv";
     getenv := fun _ => None;
     NamedTemporaryFile := Returned "/tmp/tmpk3y9.json";
     read_csv := fun _ => Returned [p1; p2];
     access_token := fun _ => Returned token;
     network := fun _ => scenario;
     os_unlink := fun _ => Returned tt |}.

(** The same run with the credentials in the environment and a CSV file
    that cannot be parsed. *)
Definition cli_env : process :=
  {| argv := ["indexing_script.py"; "urls.csv"];
     path_exists := fun path => String.eqb path "urls.csv";
     getenv := fun _ => Some "{}";
     NamedTemporaryFile := Returned "/tmp/tmpk3y9.json";
     read_csv := fun _ => Raised (Unexpected "ParserError");
     access_token := fun _ => Returned token;
     network := fun _ => scenario;
     os_unlink := fun _ => Returned tt |}.

(** A run with the credentials in the environment, on a system whose
    temporary directory is not [/tmp]. *)
Definition cli_var : process :=
  {| argv := ["indexing_script.py"; "urls.csv"];
     path_exists := fun path => String.eqb path "urls.csv";
     getenv := fun _ => Some "{}";
     NamedTemporaryFile := Returned "/var/folders/T/tmpk3y9.json";
     read_csv := fun _ => Returned [p1; p2];
     access_token := fun _ => Returned token;
     network := fun _ => scenario;
     os_unlink := fun _ => Returned tt |}.

(** The accounts whose slice of URLs the history [main] submits: the key
    file exists, authentication succeeds and the slice is not empty. *)
Definition account_usable (w : process) (all_urls : list string) (i : nat) : bool :=
  path_exists w (History145131.key_file (S i)) &&
  is_returned (access_token w (History145131.key_file (S i))) &&
  (i * History145131.URLS_PER_ACCOUNT <? length all_urls)%nat.

(** A run of the history script: 450 URLs in [data.csv], key files for
    the accounts 1 and 3 only, a network that answers every submission
    with a success body. *)
Definition multi : process :=
  {| argv := ["indexing_script.py"; "3"];
     path_exists := fun path =>
       String.eqb path "data.csv" || String.eqb path "account1.json" ||
       String.eqb path "account3.json";
     getenv := fun _ => None;
     NamedTemporaryFile := Raised (Unexpected "OSError");
     read_csv := fun _ => Returned (repeat p1 450);
     access_token := fun _ => Returned token;
     network := fun _ _ => always (Reply success_body);
     os_unlink := fun _ => Returned tt |}.

(** ** Properties *)

(** *** Counting *)

Lemma plus_assoc c d e : plus (plus c d) e = plus c (plus d e).
Proof. unfold plus; simpl; f_equal; lia. Qed.

Lemma plus_swap c d e : plus (plus c d) e = plus (plus c e) d.
Proof. unfold plus; simpl; f_equal; lia. Qed.

Lemma add_successful_plus c : add_successful c = plus c (add_successful zero).
Proof. unfold add_successful, plus; simpl; f_equal; lia. Qed.

Lemma add_429_plus c : add_429 c = plus c (add_429 zero).
Proof. unfold add_429, plus; simpl; f_equal; lia. Qed.

Lemma add_other_plus c : add_other c = plus c (add_other zero).
Proof. unfold add_other, plus; simpl; f_equal; lia. Qed.

(** A classification adds one unit, and the unit does not depend on the
    counters it is added to. *)
Lemma count_data_plus c data :
  count_data c data = (d <- count_data zero data ;; Returned (plus c d)).
Proof.
  unfold count_data.
  destruct (Json.py_in "error" data) as [[|]|]; simpl; trivial.
  - destruct (Json.getitem data "error") as [error|]; simpl; trivial.
    destruct (Json.getitem error "code") as [code|]; simpl; trivial.
    destruct (Json.eq_429 code); simpl.
    + now rewrite add_429_plus.
    + now rewrite add_other_plus.
  - now rewrite add_successful_plus.
Qed.

Lemma count_data_sum c data c' :
  count_data c data = Returned c' -> sum c' = sum c + 1.
Proof.
  unfold count_data.
  destruct (Json.py_in "error" data) as [[|]|]; simpl; try discriminate.
  - destruct (Json.getitem data "error") as [error|]; simpl; try discriminate.
    destruct (Json.getitem error "code") as [code|]; simpl; try discriminate.
    destruct (Json.eq_429 code); intros [= <-]; unfold sum; simpl; lia.
  - intros [= <-]; unfold sum; simpl; lia.
Qed.

Lemma gather_length {A : Type} (tasks : list (outcome A)) l :
  gather tasks = Returned l -> length l = length tasks.
Proof.
  revert l; induction tasks as [|[a|e] tasks IH]; simpl; intros l H.
  - now inversion H.
  - destruct (gather tasks) as [l'|]; simpl in H; try discriminate.
    inversion H; subst; simpl; f_equal; now apply IH.
  - discriminate.
Qed.

Lemma enumerate_map_length {A B : Type} (f : nat -> A -> B) i l :
  length (enumerate_map f i l) = length l.
Proof. revert i; induction l; simpl; intros; f_equal; auto. Qed.

(** When every task returns, [gather] returns, and what holds of every
    task's result holds of the list. *)
Lemma gather_returns {A B : Type} (P : B -> Prop) (f : nat -> A -> run B) l :
  forall i,
    (forall k x, nth_error l k = Some x ->
                 exists b, fst (f (i + k)%nat x) = Returned b /\ P b) ->
    exists results,
      gather (map fst (enumerate_map f i l)) = Returned results /\ Forall P results.
Proof.
  induction l as [|x l IH]; simpl; intros i H.
  - exists []; split; [reflexivity | constructor].
  - destruct (H 0%nat x eq_refl) as (b & Hb & Pb).
    rewrite Nat.add_0_r in Hb; rewrite Hb; simpl.
    destruct (IH (S i)) as (results & Hg & HP).
    + intros k y Hk. specialize (H (S k) y Hk).
      now rewrite Nat.add_succ_r in H.
    + rewrite Hg; simpl. exists (b :: results); split; [reflexivity | now constructor].
Qed.

Lemma count_result_plus c result :
  IndexingScript.count_result c result =
  (d <- IndexingScript.count_result zero result ;; Returned (plus c d)).
Proof.
  unfold IndexingScript.count_result.
  destruct (Json.loads result) as [data|]; simpl; trivial.
  apply count_data_plus.
Qed.

Lemma count_results_plus results : forall c,
  IndexingScript.count_results c results =
  (d <- IndexingScript.count_results zero results ;; Returned (plus c d)).
Proof.
  induction results as [|r results IH]; simpl; intros c.
  - destruct c; unfold plus; simpl; do 2 f_equal; lia.
  - rewrite count_result_plus.
    destruct (IndexingScript.count_result zero r) as [d|]; simpl; trivial.
    rewrite (IH (plus c d)), (IH d).
    destruct (IndexingScript.count_results zero results) as [d'|]; simpl; trivial.
    now rewrite plus_assoc.
Qed.

Lemma count_results_sum results : forall c c',
  IndexingScript.count_results c results = Returned c' ->
  sum c' = sum c + Z.of_nat (length results).
Proof.
  induction results as [|r results IH]; simpl; intros c c' H.
  - inversion H; lia.
  - unfold IndexingScript.count_result in H.
    destruct (Json.loads r) as [data|]; simpl in H; try discriminate.
    destruct (count_data c data) as [c1|] eqn:E; simpl in H; try discriminate.
    apply count_data_sum in E. apply IH in H. lia.
Qed.

Lemma well_shaped_counted c body :
  well_shaped body = true ->
  exists c', IndexingScript.count_result c body = Returned c'.
Proof.
  unfold well_shaped, IndexingScript.count_result, count_data.
  destruct (Json.loads body) as [[| | | | | |d]|]; try discriminate; simpl.
  destruct (Json.dict_get "error" d) as [[| | | | | |e]|] eqn:E; try discriminate; simpl.
  - destruct (Json.dict_get "code" e) as [code|]; try discriminate; simpl.
    destruct (Json.eq_429 code); eauto.
  - eauto.
Qed.

Lemma well_shaped_all_counted results : forall c,
  Forall (fun body => well_shaped body = true) results ->
  exists c', IndexingScript.count_results c results = Returned c'.
Proof.
  induction results as [|r results IH]; simpl; intros c H.
  - eauto.
  - inversion H as [|? ? Hr Hrest]; subst.
    destruct (well_shaped_counted c r Hr) as (c1 & ->); simpl.
    now apply IH.
Qed.

Lemma error_object_counted c body d e code :
  Json.loads body = Returned (Json.JObject d) ->
  Json.dict_get "error" d = Some (Json.JObject e) ->
  Json.dict_get "code" e = Some code ->
  IndexingScript.count_result c body =
  Returned (if Json.eq_429 code then add_429 c else add_other c).
Proof.
  intros Hload Herr Hcode.
  unfold IndexingScript.count_result, count_data.
  rewrite Hload; simpl. rewrite Herr; simpl. rewrite Hcode; simpl.
  now destruct (Json.eq_429 code).
Qed.

(** *** C2: classification of a parsed response *)

(** C2 (as amended). For a response body that parses as a JSON object,
    one turn of the aggregation loop of [indexURL] counts it as successful
    when the object has no [error] member, as rate limited when the
    [error] member is an object whose [code] equals 429, and as other
    failure when the [error] member is an object with any other [code]; in
    each of these cases exactly one counter moves, by one. An [error]
    member that is an object without [code] raises [KeyError], and one
    that is not an object raises [TypeError]: such a response reaches no
    counter. *)
Theorem C2_classification (c : counters) (body : string) (d : list (string * Json.json)) :
  Json.loads body = Returned (Json.JObject d) ->
  (Json.dict_get "error" d = None ->
   IndexingScript.count_result c body = Returned (add_successful c)) /\
  (forall e code,
      Json.dict_get "error" d = Some (Json.JObject e) ->
      Json.dict_get "code" e = Some code ->
      IndexingScript.count_result c body =
      Returned (if Json.eq_429 code then add_429 c else add_other c)) /\
  (forall e,
      Json.dict_get "error" d = Some (Json.JObject e) ->
      Json.dict_get "code" e = None ->
      IndexingScript.count_result c body = Raised (KeyError "code")) /\
  (forall v,
      Json.dict_get "error" d = Some v ->
      (forall e, v <> Json.JObject e) ->
      IndexingScript.count_result c body = Raised TypeError).
Proof.
  intros Hload. unfold IndexingScript.count_result, count_data.
  rewrite Hload; simpl.
  repeat split.
  - intros ->; reflexivity.
  - intros e code -> Hc; simpl. rewrite Hc; simpl.
    now destruct (Json.eq_429 code).
  - intros e -> Hc; simpl. now rewrite Hc.
  - intros v -> Hv; simpl.
    destruct v as [| | | | | |e]; try reflexivity. now elim (Hv e).
Qed.

(** The three cases of C2 on a 429 body, a 403 body and a success body. *)
Lemma C2_classification_witness :
  Json.loads rate_limited_body =
    Returned (Json.JObject
                [("error", Json.JObject [("code", Json.JInt 429);
                                         ("message", Json.JString "x")])]) /\
  IndexingScript.count_result zero rate_limited_body = Returned (add_429 zero) /\
  IndexingScript.count_result zero denied_body = Returned (add_other zero) /\
  IndexingScript.count_result zero success_body = Returned (add_successful zero).
Proof.
  split; [reflexivity|].
  split; [|split].
  - exact (proj1 (proj2 (C2_classification zero rate_limited_body _ eq_refl))
             _ _ eq_refl eq_refl).
  - exact (proj1 (proj2 (C2_classification zero denied_body _ eq_refl))
             _ _ eq_refl eq_refl).
  - exact (proj1 (C2_classification zero success_body _ eq_refl) eq_refl).
Defined.

(** C2 as stated fails: [{"error":{"message":"denied"}}] parses as a JSON
    object, yet the loop raises [KeyError] on it and no counter moves. *)
Lemma C2_counterexample :
  Json.loads codeless_body =
    Returned (Json.JObject [("error", Json.JObject [("message", Json.JString "denied")])]) /\
  IndexingScript.count_result zero codeless_body = Raised (KeyError "code") /\
  ~ (exists c', IndexingScript.count_result zero codeless_body = Returned c').
Proof.
  split; [reflexivity|]. split; [reflexivity|].
  intros (c' & H). discriminate H.
Qed.

(** *** C1: the tally of a batch *)

(** C1 (as amended). Whenever [indexURL] reports a tally for a list of
    URLs, its total is the length of the list and the three counters add
    up to the total, one classification per URL; and it does report one
    whenever every submission returns a body of the expected shape (a JSON
    object with no [error] member, or with an [error] object that has a
    [code]). *)
Theorem C1_tally_invariant (net : nat -> oracle) (http : string) (urls : list string) :
  (forall t,
      fst (IndexingScript.indexURL net http urls) = Returned t ->
      total t = Z.of_nat (length urls) /\
      successful t + rateLimited t + otherFailed t = total t) /\
  ((forall i url,
       nth_error urls i = Some url ->
       exists body,
         fst (IndexingScript.send_url (net i) http url) = Returned body /\
         well_shaped body = true) ->
   exists t, fst (IndexingScript.indexURL net http urls) = Returned t).
Proof.
  unfold IndexingScript.indexURL; simpl. split.
  - intros t H.
    destruct (gather _) as [results|] eqn:G; simpl in H; try discriminate.
    destruct (IndexingScript.count_results zero results) as [c|] eqn:C;
      simpl in H; try discriminate.
    inversion H; subst; clear H. simpl. split; [reflexivity|].
    apply count_results_sum in C. apply gather_length in G.
    rewrite length_map, enumerate_map_length in G.
    unfold sum in C; simpl in C. lia.
  - intros H.
    destruct (gather_returns (fun body => well_shaped body = true)
                (fun i url => IndexingScript.send_url (net i) http url) urls 0%nat H)
      as (results & -> & Hall); simpl.
    destruct (well_shaped_all_counted results zero Hall) as (c & ->); simpl.
    eauto.
Qed.

(** The scenario of the specification: two URLs, a success and a 403, give
    the tally 2, 1, 0, 1. *)
Lemma C1_tally_invariant_witness :
  fst (IndexingScript.indexURL scenario token [p1; p2])
  = Returned {| total := 2; successful := 1; rateLimited := 0; otherFailed := 1 |} /\
  (2 = Z.of_nat (length [p1; p2]) /\ 1 + 0 + 1 = 2) /\
  exists t, fst (IndexingScript.indexURL scenario token [p1; p2]) = Returned t.
Proof.
  split; [reflexivity|]. split.
  - exact (proj1 (C1_tally_invariant scenario token [p1; p2])
             {| total := 2; successful := 1; rateLimited := 0; otherFailed := 1 |} eq_refl).
  - apply (proj2 (C1_tally_invariant scenario token [p1; p2])).
    intros [|[|i]] url H; simpl in H.
    + inversion H; subst. exists success_body. split; reflexivity.
    + inversion H; subst. exists denied_body. split; reflexivity.
    + destruct i; discriminate H.
Defined.

(** C1 as stated fails: a URL whose response is the JSON text [null] gets
    no classification, the aggregation raises [TypeError] and no tally is
    reported. *)
Lemma C1_counterexample :
  fst (IndexingScript.indexURL (fun _ => always (Reply "null")) token [p1]) = Raised TypeError /\
  ~ (exists t,
        fst (IndexingScript.indexURL (fun _ => always (Reply "null")) token [p1]) = Returned t).
Proof.
  split; [reflexivity|]. intros (t & H). discriminate H.
Qed.

(** *** Single submissions *)

Lemma error_body_counted n body c :
  error_body n body ->
  IndexingScript.count_result c body =
  Returned (if (n =? 429) then add_429 c else add_other c).
Proof.
  intros (d & e & Hload & Herr & Hcode).
  now rewrite (error_object_counted c body d e _ Hload Herr Hcode).
Qed.

Lemma count_results_app l1 : forall c l2,
  IndexingScript.count_results c (l1 ++ l2)%list =
  (c' <- IndexingScript.count_results c l1 ;; IndexingScript.count_results c' l2).
Proof.
  induction l1 as [|r l1 IH]; simpl; intros c l2; trivial.
  destruct (IndexingScript.count_result c r) as [c1|]; simpl; trivial.
Qed.

(** Three disconnections in a row use up the loop of [send_url]. *)
Lemma send_url_disconnected session http url :
  (forall attempt, (attempt < 3)%nat -> session attempt = Throw ServerDisconnectedError) ->
  IndexingScript.send_url session http url =
  (Returned IndexingScript.server_disconnected,
   let r := IndexingScript.post_request http url in
   [Post r; Sleep 2; Post r; Sleep 2; Post r; Sleep 2]).
Proof.
  intros H. unfold IndexingScript.send_url; simpl.
  rewrite !H by lia. reflexivity.
Qed.




Lemma server_disconnected_is_500 : error_body 500 IndexingScript.server_disconnected.
Proof.
  exists [("error", Json.JObject [("code", Json.JInt 500);
                                  ("message", Json.JString "Server Disconnected")])],
         [("code", Json.JInt 500); ("message", Json.JString "Server Disconnected")].
  repeat split; vm_compute; reflexivity.
Qed.

Lemma server_disconnected_counted c :
  IndexingScript.count_result c IndexingScript.server_disconnected = Returned (add_other c).
Proof. exact (error_body_counted 500 _ c server_disconnected_is_500). Qed.

(** A batch of one URL whose submission returns [text]. *)
Lemma indexURL_single net http url text c :
  fst (IndexingScript.send_url (net 0%nat) http url) = Returned text ->
  IndexingScript.count_result zero text = Returned c ->
  fst (IndexingScript.indexURL net http [url]) = Returned (report [url] c).
Proof.
  intros Hsend Hcount. unfold IndexingScript.indexURL.
  cbn [enumerate_map map fst gather].
  rewrite Hsend. cbn [bind IndexingScript.count_results].
  rewrite Hcount. reflexivity.
Qed.

(** *** C3: a URL that is always rate limited *)




(** *** C5: retries after a disconnection *)

(** C5 (as amended). A submission whose three attempts all end in
    [ServerDisconnectedError] is attempted three times by [send_url], with
    a flat wait of 2 seconds before each retry, and then returns the
    literal 500 error body, which is counted as other failure, rather
    than raising. The wait of 2 seconds times the attempt number (2 s,
    then 4 s) is that of [send_single_url] of the single-URL script,
    which returns [False] after the third disconnection. *)
Theorem C5_transport_retries (session : oracle) (http url : string) :
  (forall attempt, (attempt < 3)%nat -> session attempt = Throw ServerDisconnectedError) ->
  fst (IndexingScript.send_url session http url) =
    Returned IndexingScript.server_disconnected /\
  posts (snd (IndexingScript.send_url session http url)) = 3%nat /\
  (exists after,
      snd (IndexingScript.send_url session http url) =
      ((let r := IndexingScript.post_request http url in
        [Post r; Sleep 2; Post r; Sleep 2; Post r]) ++ after)%list) /\
  fst (IndexingScript.indexURL (fun _ => session) http [url]) =
    Returned {| total := 1; successful := 0; rateLimited := 0; otherFailed := 1 |} /\
  SingleUrlScript.send_single_url session http url =
    (Returned false,
     let r := SingleUrlScript.post_request http url in
     [Post r; Sleep 2; Post r; Sleep 4; Post r]).
Proof.
  intros H.
  pose proof (send_url_disconnected session http url H) as Hsend.
  split; [now rewrite Hsend|]. split; [now rewrite Hsend|]. split; [|split].
  - rewrite Hsend. exists [Sleep 2]. reflexivity.
  - apply (indexURL_single (fun _ => session) http url
             IndexingScript.server_disconnected (add_other zero)).
    + now rewrite Hsend.
    + apply server_disconnected_counted.
  - unfold SingleUrlScript.send_single_url.
    cbn [seq SingleUrlScript.send_single_url_loop].
    rewrite !H by lia. reflexivity.
Qed.

(** C5 against a transport that always disconnects. *)
Lemma C5_transport_retries_witness :
  (forall attempt, (attempt < 3)%nat ->
                   always (Throw ServerDisconnectedError) attempt = Throw ServerDisconnectedError) /\
  posts (snd (IndexingScript.send_url (always (Throw ServerDisconnectedError)) token p1)) = 3%nat /\
  sleeps (snd (SingleUrlScript.send_single_url (always (Throw ServerDisconnectedError)) token p1))
  = [2; 4].
Proof.
  split; [reflexivity|].
  destruct (C5_transport_retries (always (Throw ServerDisconnectedError)) token p1
              (fun _ _ => eq_refl))
    as (_ & Hposts & _ & _ & Hsingle).
  split; [exact Hposts|]. rewrite Hsingle. reflexivity.
Defined.

(** C5 as stated fails: after three disconnections [send_url] has slept
    2, 2 and 2 seconds, not 2 and 4. *)
Lemma C5_counterexample :
  sleeps (snd (IndexingScript.send_url (always (Throw ServerDisconnectedError)) token p1))
  = [2; 2; 2] /\
  sleeps (snd (IndexingScript.send_url (always (Throw ServerDisconnectedError)) token p1))
  <> [2; 4].
Proof.
  split; [reflexivity|discriminate].
Qed.

(** *** C10: the body returned when the retries are used up *)

(** C10. After three disconnections [send_url] returns the literal
    [{"error": {"code": 500, "message": "Server Disconnected"}}]; the
    aggregation counts it as other failure, and counts any list of results
    that holds it exactly as it counts the list with a genuine response
    of error code 500 in its place. *)
Theorem C10_disconnected_counts_as_500 (session : oracle) (http url : string) :
  (forall attempt, (attempt < 3)%nat -> session attempt = Throw ServerDisconnectedError) ->
  fst (IndexingScript.send_url session http url) =
    Returned (literal "{'error': {'code': 500, 'message': 'Server Disconnected'}}") /\
  (forall c,
      IndexingScript.count_result c IndexingScript.server_disconnected =
      Returned (add_other c)) /\
  (forall genuine before after c,
      error_body 500 genuine ->
      IndexingScript.count_results c (before ++ IndexingScript.server_disconnected :: after)%list =
      IndexingScript.count_results c (before ++ genuine :: after)%list).
Proof.
  intros H. split; [|split].
  - now rewrite (send_url_disconnected session http url H).
  - apply server_disconnected_counted.
  - intros genuine before after c Hgen.
    rewrite !count_results_app.
    destruct (IndexingScript.count_results c before) as [c'|]; cbn [bind]; trivial.
    cbn [IndexingScript.count_results].
    now rewrite server_disconnected_counted, (error_body_counted 500 genuine c' Hgen).
Qed.

(** C10 against a transport that always disconnects, with a genuine 500
    body of another message. *)
Lemma C10_disconnected_counts_as_500_witness :
  (forall attempt, (attempt < 3)%nat ->
                   always (Throw ServerDisconnectedError) attempt = Throw ServerDisconnectedError) /\
  fst (IndexingScript.send_url (always (Throw ServerDisconnectedError)) token p1) =
    Returned (literal "{'error': {'code': 500, 'message': 'Server Disconnected'}}") /\
  IndexingScript.count_results zero [success_body; IndexingScript.server_disconnected] =
  IndexingScript.count_results zero
    [success_body; (literal "{'error': {'code': 500, 'message': 'Internal error'}}")].
Proof.
  split; [reflexivity|].
  destruct (C10_disconnected_counts_as_500 (always (Throw ServerDisconnectedError)) token p1
              (fun _ _ => eq_refl))
    as (Hsend & _ & Hsame).
  split; [exact Hsend|].
  apply (Hsame _ [success_body] [] zero).
  exists [("error", Json.JObject [("code", Json.JInt 500);
                                  ("message", Json.JString "Internal error")])],
         [("code", Json.JInt 500); ("message", Json.JString "Internal error")].
  repeat split; vm_compute; reflexivity.
Defined.

(** *** C9: the order of the results *)

Lemma count_results_swap x y results c :
  counts (IndexingScript.count_results c (y :: x :: results)) =
  counts (IndexingScript.count_results c (x :: y :: results)).
Proof.
  cbn [IndexingScript.count_results].
  rewrite (count_result_plus c y), (count_result_plus c x).
  destruct (IndexingScript.count_result zero y) as [dy|] eqn:Ey;
    destruct (IndexingScript.count_result zero x) as [dx|] eqn:Ex; cbn [bind].
  - rewrite (count_result_plus (plus c dy) x), Ex.
    rewrite (count_result_plus (plus c dx) y), Ey.
    cbn [bind]. now rewrite plus_swap.
  - now rewrite (count_result_plus (plus c dy) x), Ex.
  - now rewrite (count_result_plus (plus c dx) y), Ey.
  - reflexivity.
Qed.

(** C9. The counters computed by the aggregation loop of [indexURL] do
    not depend on the order of the results: a permutation of the list of
    response bodies yields the same successful, rate-limited and
    other-failure counts (and the loop fails on the one list exactly when
    it fails on the other). *)
Theorem C9_order_independent (results results' : list string) :
  Permutation results results' ->
  forall c,
    counts (IndexingScript.count_results c results) =
    counts (IndexingScript.count_results c results').
Proof.
  induction 1 as [|x l l' _ IH|x y l|l l' l'' _ IH1 _ IH2]; intros c.
  - reflexivity.
  - simpl. destruct (IndexingScript.count_result c x) as [c'|]; simpl; auto.
  - apply count_results_swap.
  - now rewrite IH1.
Qed.

(** C9 on a rotation of three results. *)
Lemma C9_order_independent_witness :
  Permutation [success_body; denied_body; rate_limited_body]
              [rate_limited_body; success_body; denied_body] /\
  counts (IndexingScript.count_results zero [success_body; denied_body; rate_limited_body]) =
  counts (IndexingScript.count_results zero [rate_limited_body; success_body; denied_body]).
Proof.
  assert (P : Permutation [success_body; denied_body; rate_limited_body]
                          [rate_limited_body; success_body; denied_body]).
  { apply Permutation_sym. apply (Permutation_cons_app [_; _] []). apply Permutation_refl. }
  split; [exact P|].
  exact (C9_order_independent _ _ P zero).
Defined.

(** *** C8: the empty batch *)

(** C8. For an empty list of URLs [indexURL] reports the zero tally; no
    submission is started, so no request is sent, and nothing is
    raised. *)
Theorem C8_empty_batch (net : nat -> oracle) (http : string) :
  IndexingScript.indexURL net http [] =
  (Returned {| total := 0; successful := 0; rateLimited := 0; otherFailed := 0 |}, []).
Proof. reflexivity. Qed.

(** *** C4: a body that is not JSON *)

(** Whatever the body, once [json.loads] rejects it the current script
    raises and the history variant counts one other failure. *)
Lemma unparsable_body_counted c body :
  Json.loads body = Raised JSONDecodeError ->
  IndexingScript.count_result c body = Raised JSONDecodeError /\
  History145131.count_result c body = Returned (add_other c).
Proof.
  intros H. unfold IndexingScript.count_result, History145131.count_result.
  now rewrite H.
Qed.

(** C4 (evaluation at the failing input). Against a transport that
    answers [not json], [send_url] sends exactly one request and returns
    the text, without retry; the aggregation of [indexURL] then raises
    [JSONDecodeError], so nothing is counted and no tally is reported. The
    history variant of 14:51:31 catches the exception and counts the URL
    as other failure. *)
Theorem C4_unparsable_body_aborts :
  IndexingScript.send_url (always (Reply "not json")) token p1 =
    (Returned "not json", [Post (IndexingScript.post_request token p1)]) /\
  Json.loads "not json" = Raised JSONDecodeError /\
  fst (IndexingScript.indexURL (fun _ => always (Reply "not json")) token [p1]) =
    Raised JSONDecodeError /\
  fst (History145131.indexURL (fun _ => always (Reply "not json")) token [p1]) =
    Returned {| total := 1; successful := 0; rateLimited := 0; otherFailed := 1 |}.
Proof. repeat split; vm_compute; reflexivity. Qed.

(** *** C6: an unexpected exception *)

(** C6 (evaluation at the failing input). When the submission of the
    second of two URLs raises an exception other than
    [ServerDisconnectedError], [send_url] lets it through, [gather]
    raises it and [indexURL] reports no tally, although the first URL was
    answered. The history variant of 14:51:31 catches it in [send_url],
    returns its 500 body and reports a tally over both URLs. *)
Theorem C6_unexpected_exception_aborts (what : string) :
  fst (IndexingScript.send_url (always (Throw (Unexpected what))) token p2) =
    Raised (Unexpected what) /\
  fst (IndexingScript.indexURL (second_fails (Throw (Unexpected what))) token [p1; p2]) =
    Raised (Unexpected what) /\
  fst (History145131.send_url (always (Throw (Unexpected what))) token p2) =
    Returned History145131.server_disconnected /\
  fst (History145131.indexURL (second_fails (Throw (Unexpected what))) token [p1; p2]) =
    Returned {| total := 2; successful := 1; rateLimited := 0; otherFailed := 1 |}.
Proof. repeat split; vm_compute; reflexivity. Qed.

(** *** C7: the request *)

Lemma strip_padded : PyStr.strip padded_p1 = p1.
Proof. vm_compute; reflexivity. Qed.

(** C7 (the request as the code builds it). Every submission sends at
    least one request, and all its requests are the same POST to the
    fixed endpoint, with the JSON body [{"url": url.strip(), "type":
    "URL_UPDATED"}] and the header [Authorization: Bearer <token>]; but
    the call passes no timeout, where the history variant of 14:51:31
    passes a total timeout of 30 seconds. *)
Theorem C7_request_without_timeout (session : oracle) (http url : string) :
  (exists n,
      requests (snd (IndexingScript.send_url session http url)) =
      repeat (IndexingScript.post_request http url) (S n)) /\
  IndexingScript.post_request http url =
    {| method := "POST";
       endpoint := "https://indexing.googleapis.com/v3/urlNotifications:publish";
       json := [("url", PyStr.strip url); ("type", "URL_UPDATED")];
       headers := [("Authorization", "Bearer " ++ http)];
       ssl := false;
       timeout := None |} /\
  json (IndexingScript.post_request token padded_p1) =
    [("url", "https://a.example/p1"); ("type", "URL_UPDATED")] /\
  timeout (IndexingScript.post_request http url) <> Some 30 /\
  timeout (History145131.post_request http url) = Some 30.
Proof.
  split; [|split; [reflexivity|split; [|split; [discriminate|reflexivity]]]];
    [|unfold IndexingScript.post_request, content; cbn [json];
      now rewrite strip_padded].
  unfold IndexingScript.send_url. cbn [seq IndexingScript.send_url_loop].
  destruct (session 0%nat) as [t0|[]]; try (exists 0%nat; reflexivity).
  destruct (session 1%nat) as [t1|[]]; try (exists 1%nat; reflexivity).
  destruct (session 2%nat) as [t2|[]]; try (exists 2%nat; reflexivity).
Qed.

(** ** Further properties of the submitters *)

(** X1. [send_url] recovers from up to two disconnections: when the first
    [n < 3] attempts are disconnected and the next one is answered, it
    returns that answer after [n + 1] requests and [n] sleeps of 2
    seconds. *)
Theorem X1_send_url_recovers (session : oracle) (http url body : string) (n : nat) :
  (n < 3)%nat ->
  (forall attempt, (attempt < n)%nat -> session attempt = Throw ServerDisconnectedError) ->
  session n = Reply body ->
  fst (IndexingScript.send_url session http url) = Returned body /\
  posts (snd (IndexingScript.send_url session http url)) = S n /\
  sleeps (snd (IndexingScript.send_url session http url)) = repeat 2 n.
Proof.
  intros Hn Hfail Hok. unfold IndexingScript.send_url.
  cbn [seq IndexingScript.send_url_loop].
  destruct n as [|[|[|n]]]; try lia.
  - rewrite Hok. repeat split.
  - rewrite (Hfail 0%nat) by lia. rewrite Hok. repeat split.
  - rewrite (Hfail 0%nat), (Hfail 1%nat) by lia. rewrite Hok. repeat split.
Qed.

(** X1 for two disconnections followed by a success body. *)
Lemma X1_send_url_recovers_witness :
  (2 < 3)%nat /\
  fst (IndexingScript.send_url (flaky 2 success_body) token p1) = Returned success_body /\
  posts (snd (IndexingScript.send_url (flaky 2 success_body) token p1)) = 3%nat /\
  sleeps (snd (IndexingScript.send_url (flaky 2 success_body) token p1)) = [2; 2].
Proof.
  split; [lia|].
  apply (X1_send_url_recovers (flaky 2 success_body) token p1 success_body 2).
  - lia.
  - intros [|[|k]] Hk; try reflexivity; lia.
  - reflexivity.
Defined.

(** X2. Whatever the network does, [send_url] sends between one and
    three requests, sleeps only for 2 seconds at a time and never more
    often than it sends, and never raises [ServerDisconnectedError]. *)
Theorem X2_send_url_bounded (session : oracle) (http url : string) :
  (1 <= posts (snd (IndexingScript.send_url session http url)) <= 3)%nat /\
  Forall (fun s => s = 2) (sleeps (snd (IndexingScript.send_url session http url))) /\
  (length (sleeps (snd (IndexingScript.send_url session http url)))
   <= posts (snd (IndexingScript.send_url session http url)))%nat /\
  fst (IndexingScript.send_url session http url) <> Raised ServerDisconnectedError.
Proof.
  unfold IndexingScript.send_url. cbn [seq IndexingScript.send_url_loop].
  destruct (session 0%nat) as [t0|[]];
    try (cbn; repeat split; try lia; try constructor; discriminate).
  destruct (session 1%nat) as [t1|[]];
    try (cbn; repeat split; try lia; repeat constructor; discriminate).
  destruct (session 2%nat) as [t2|[]];
    cbn; repeat split; try lia; repeat constructor; discriminate.
Qed.

(** X3. [send_url] raises [e] exactly when one of its three attempts
    raises [e], [e] is not a disconnection and every earlier attempt was
    disconnected. *)
Theorem X3_send_url_raises_iff (session : oracle) (http url : string) (e : exn) :
  fst (IndexingScript.send_url session http url) = Raised e <->
  exists k,
    (k < 3)%nat /\ session k = Throw e /\ e <> ServerDisconnectedError /\
    forall j, (j < k)%nat -> session j = Throw ServerDisconnectedError.
Proof.
  unfold IndexingScript.send_url. cbn [seq IndexingScript.send_url_loop]. split.
  - destruct (session 0%nat) as [t0|e0] eqn:E0.
    { discriminate. }
    destruct e0;
      try (cbn; intros [= <-]; exists 0%nat;
           repeat split; [lia|exact E0|discriminate|intros j Hj; lia]).
    destruct (session 1%nat) as [t1|e1] eqn:E1.
    { discriminate. }
    destruct e1;
      try (cbn; intros [= <-]; exists 1%nat;
           repeat split; [lia|exact E1|discriminate|
                          intros [|j] Hj; [exact E0|lia]]).
    destruct (session 2%nat) as [t2|e2] eqn:E2.
    { discriminate. }
    destruct e2;
      try (cbn; intros [= <-]; exists 2%nat;
           repeat split; [lia|exact E2|discriminate|
                          intros [|[|j]] Hj; [exact E0|exact E1|lia]]).
    discriminate.
  - intros (k & Hk & Hthrow & Hne & Hbefore).
    destruct k as [|[|[|k]]]; try lia.
    + rewrite Hthrow. destruct e; try reflexivity. now elim Hne.
    + rewrite (Hbefore 0%nat) by lia. rewrite Hthrow.
      destruct e; try reflexivity. now elim Hne.
    + rewrite (Hbefore 0%nat), (Hbefore 1%nat) by lia. rewrite Hthrow.
      destruct e; try reflexivity. now elim Hne.
Qed.

(** X4. [send_url] of the history variant never raises: whatever the
    network does it returns a text, after between one and three requests
    and at most two sleeps of 2 seconds. *)
Theorem X4_history_send_url_total (session : oracle) (http url : string) :
  (exists body, fst (History145131.send_url session http url) = Returned body) /\
  (1 <= posts (snd (History145131.send_url session http url)) <= 3)%nat /\
  (exists n, (n <= 2)%nat /\
             sleeps (snd (History145131.send_url session http url)) = repeat 2 n).
Proof.
  unfold History145131.send_url. cbn [seq History145131.send_url_loop].
  destruct (session 0%nat) as [t0|[]];
    try (split; [eexists; reflexivity
                | split; [cbn; lia | exists 0%nat; split; [lia | reflexivity]]]).
  destruct (session 1%nat) as [t1|[]];
    try (split; [eexists; reflexivity
                | split; [cbn; lia | exists 1%nat; split; [lia | reflexivity]]]).
  destruct (session 2%nat) as [t2|[]];
    (split; [eexists; reflexivity
            | split; [cbn; lia | exists 2%nat; split; [lia | reflexivity]]]).
Qed.

(** ** Further properties of the batch *)

Lemma count_data_grows c data c' :
  count_data c data = Returned c' ->
  successful_urls c <= successful_urls c' /\
  error_429_count c <= error_429_count c' /\
  other_errors_count c <= other_errors_count c'.
Proof.
  unfold count_data.
  destruct (Json.py_in "error" data) as [[|]|]; cbn [bind]; try discriminate.
  - destruct (Json.getitem data "error") as [error|]; cbn [bind]; try discriminate.
    destruct (Json.getitem error "code") as [code|]; cbn [bind]; try discriminate.
    destruct (Json.eq_429 code); intros [= <-]; cbn; lia.
  - intros [= <-]; cbn; lia.
Qed.

Lemma count_results_grow results : forall c c',
  IndexingScript.count_results c results = Returned c' ->
  successful_urls c <= successful_urls c' /\
  error_429_count c <= error_429_count c' /\
  other_errors_count c <= other_errors_count c'.
Proof.
  induction results as [|r results IH]; cbn [IndexingScript.count_results]; intros c c' H.
  - inversion H; lia.
  - unfold IndexingScript.count_result in H.
    destruct (Json.loads r) as [data|]; cbn [bind] in H; try discriminate.
    destruct (count_data c data) as [c1|] eqn:E; cbn [bind] in H; try discriminate.
    apply count_data_grows in E. apply IH in H. lia.
Qed.

Lemma nth_error_enumerate_map {A B : Type} (f : nat -> A -> B) l : forall i k,
  nth_error (enumerate_map f i l) k = option_map (f (i + k)%nat) (nth_error l k).
Proof.
  induction l as [|x l IH]; intros i [|k]; cbn; trivial.
  - now rewrite Nat.add_0_r.
  - rewrite IH. now rewrite Nat.add_succ_r.
Qed.

Lemma send_url_requests session http url :
  exists n, (n < 3)%nat /\
            requests (snd (IndexingScript.send_url session http url)) =
            repeat (IndexingScript.post_request http url) (S n).
Proof.
  unfold IndexingScript.send_url. cbn [seq IndexingScript.send_url_loop].
  destruct (session 0%nat) as [t0|[]];
    try (exists 0%nat; split; [lia|reflexivity]).
  destruct (session 1%nat) as [t1|[]];
    try (exists 1%nat; split; [lia|reflexivity]).
  destruct (session 2%nat) as [t2|[]];
    (exists 2%nat; split; [lia|reflexivity]).
Qed.

Lemma no_error_counted c body :
  no_error_body body ->
  IndexingScript.count_result c body = Returned (add_successful c).
Proof.
  intros (data & Hload & Hin).
  unfold IndexingScript.count_result, count_data.
  rewrite Hload; cbn [bind]. rewrite Hin. reflexivity.
Qed.

Lemma no_error_all_counted results : forall c,
  Forall no_error_body results ->
  IndexingScript.count_results c results =
  Returned {| successful_urls := successful_urls c + Z.of_nat (length results);
              error_429_count := error_429_count c;
              other_errors_count := other_errors_count c |}.
Proof.
  induction results as [|r results IH]; intros c H.
  - cbn. destruct c; cbn. do 2 f_equal. lia.
  - inversion H as [|? ? Hr Hrest]; subst.
    cbn [IndexingScript.count_results].
    rewrite (no_error_counted c r Hr); cbn [bind].
    rewrite (IH _ Hrest). cbn [add_successful successful_urls error_429_count
                                 other_errors_count length].
    do 2 f_equal. lia.
Qed.

(** X5. When every submission returns a body in which no error is found
    (it parses, and ["error" in data] is false), [indexURL] reports every
    URL as successful: successful = total, the other counters are 0. *)
Theorem X5_all_successful (net : nat -> oracle) (http : string) (urls : list string) :
  (forall i url,
      nth_error urls i = Some url ->
      exists body,
        fst (IndexingScript.send_url (net i) http url) = Returned body /\
        no_error_body body) ->
  fst (IndexingScript.indexURL net http urls) =
  Returned {| total := Z.of_nat (length urls);
              successful := Z.of_nat (length urls);
              rateLimited := 0;
              otherFailed := 0 |}.
Proof.
  intros H. unfold IndexingScript.indexURL. cbn [fst].
  destruct (gather_returns no_error_body
              (fun i url => IndexingScript.send_url (net i) http url) urls 0%nat H)
    as (results & Hg & Hall).
  rewrite Hg; cbn [bind].
  rewrite (no_error_all_counted results zero Hall); cbn [bind].
  apply gather_length in Hg.
  rewrite length_map, enumerate_map_length in Hg.
  unfold report. cbn. now rewrite Hg.
Qed.

(** X5 for two URLs that are both answered with a success body. *)
Lemma X5_all_successful_witness :
  fst (IndexingScript.indexURL (fun _ => always (Reply success_body)) token [p1; p2]) =
  Returned {| total := 2; successful := 2; rateLimited := 0; otherFailed := 0 |}.
Proof.
  apply (X5_all_successful (fun _ => always (Reply success_body)) token [p1; p2]).
  intros i url _. exists success_body. split; [reflexivity|].
  eexists. split; vm_compute; reflexivity.
Defined.

(** X6. A body that parses to something other than a JSON object is
    still classified by the aggregation loop: an array with no element
    equal to the string [error], and a string that does not contain
    [error], are counted as successful; an array or a string that does,
    and every number, boolean and null, raise [TypeError]. *)
Theorem X6_non_object_bodies (c : counters) (body : string) (v : Json.json) :
  Json.loads body = Returned v ->
  (forall items,
      v = Json.JArray items ->
      IndexingScript.count_result c body =
      if existsb is_error_string items then Raised TypeError
      else Returned (add_successful c)) /\
  (forall s,
      v = Json.JString s ->
      IndexingScript.count_result c body =
      if PyStr.contains "error" s then Raised TypeError
      else Returned (add_successful c)) /\
  (v = Json.JNull \/ (exists b, v = Json.JBool b) \/
   (exists z, v = Json.JInt z) \/ (exists f, v = Json.JFloat f) ->
   IndexingScript.count_result c body = Raised TypeError).
Proof.
  intros Hload. unfold IndexingScript.count_result, count_data.
  rewrite Hload; cbn [bind]. repeat split.
  - intros items ->. cbn [Json.py_in bind].
    replace (existsb _ items) with (existsb is_error_string items).
    + now destruct (existsb is_error_string items).
    + clear. induction items as [|[] items IH]; cbn; congruence.
  - intros s ->. cbn [Json.py_in bind].
    now destruct (PyStr.contains "error" s).
  - intros [->|[(b & ->)|[(z & ->)|(f & ->)]]]; reflexivity.
Qed.

(** X6 for the empty array and for a bare number. *)
Lemma X6_non_object_bodies_witness :
  Json.loads "[]" = Returned (Json.JArray []) /\
  IndexingScript.count_result zero "[]" = Returned (add_successful zero) /\
  Json.loads "503" = Returned (Json.JInt 503) /\
  IndexingScript.count_result zero "503" = Raised TypeError.
Proof.
  split; [reflexivity|]. split.
  - exact (proj1 (X6_non_object_bodies zero "[]" _ eq_refl) [] eq_refl).
  - split; [reflexivity|].
    apply (proj2 (proj2 (X6_non_object_bodies zero "503" _ eq_refl))).
    right; right; left. now exists 503.
Defined.

(** X7. [indexURL] starts one submission per URL, and the submission of
    the [i]-th URL sends between one and three requests, all of them the
    request built from that URL. *)
Theorem X7_one_task_per_url (net : nat -> oracle) (http : string) (urls : list string) :
  length (snd (IndexingScript.indexURL net http urls)) = length urls /\
  (forall i url,
      nth_error urls i = Some url ->
      exists tr n,
        nth_error (snd (IndexingScript.indexURL net http urls)) i = Some tr /\
        (n < 3)%nat /\
        requests tr = repeat (IndexingScript.post_request http url) (S n)).
Proof.
  unfold IndexingScript.indexURL. cbn [snd]. split.
  - now rewrite length_map, enumerate_map_length.
  - intros i url Hi.
    destruct (send_url_requests (net i) http url) as (n & Hn & Hreq).
    exists (snd (IndexingScript.send_url (net i) http url)), n.
    split; [|split; assumption].
    rewrite nth_error_map, nth_error_enumerate_map, Hi. reflexivity.
Qed.

(** X7 for the scenario of two URLs. *)
Lemma X7_one_task_per_url_witness :
  nth_error [p1; p2] 1 = Some p2 /\
  exists tr n,
    nth_error (snd (IndexingScript.indexURL scenario token [p1; p2])) 1 = Some tr /\
    (n < 3)%nat /\
    requests tr = repeat (IndexingScript.post_request token p2) (S n).
Proof.
  split; [reflexivity|].
  exact (proj2 (X7_one_task_per_url scenario token [p1; p2]) 1%nat p2 eq_refl).
Defined.

(** X8. Counting composes: when the results of two batches are counted
    separately, counting their concatenation gives the field-wise sum of
    the two counts. *)
Theorem X8_counts_add_up (l1 l2 : list string) (a b : counters) :
  IndexingScript.count_results zero l1 = Returned a ->
  IndexingScript.count_results zero l2 = Returned b ->
  IndexingScript.count_results zero (l1 ++ l2)%list = Returned (plus a b).
Proof.
  intros H1 H2. rewrite count_results_app, H1; cbn [bind].
  rewrite count_results_plus, H2. reflexivity.
Qed.

(** X8 for a batch of two results followed by a batch of one. *)
Lemma X8_counts_add_up_witness :
  IndexingScript.count_results zero [success_body; denied_body; rate_limited_body] =
  Returned {| successful_urls := 1; error_429_count := 1; other_errors_count := 1 |}.
Proof.
  apply (X8_counts_add_up [success_body; denied_body] [rate_limited_body]
           {| successful_urls := 1; error_429_count := 0; other_errors_count := 1 |}
           {| successful_urls := 0; error_429_count := 1; other_errors_count := 0 |});
    vm_compute; reflexivity.
Defined.

(** X9. In every tally [indexURL] reports, each of the three counters
    lies between 0 and the total. *)
Theorem X9_counters_in_range (net : nat -> oracle) (http : string) (urls : list string)
  (t : tally) :
  fst (IndexingScript.indexURL net http urls) = Returned t ->
  0 <= successful t <= total t /\
  0 <= rateLimited t <= total t /\
  0 <= otherFailed t <= total t.
Proof.
  unfold IndexingScript.indexURL; cbn [fst]. intros H.
  destruct (gather _) as [results|] eqn:G; cbn [bind] in H; try discriminate.
  destruct (IndexingScript.count_results zero results) as [c|] eqn:C;
    cbn [bind] in H; try discriminate.
  inversion H; subst; clear H.
  pose proof (count_results_sum _ _ _ C) as Hsum.
  pose proof (count_results_grow _ _ _ C) as Hgrow.
  apply gather_length in G. rewrite length_map, enumerate_map_length in G.
  unfold sum in Hsum. cbn in *. lia.
Qed.

(** X9 on the scenario of the specification. *)
Lemma X9_counters_in_range_witness :
  fst (IndexingScript.indexURL scenario token [p1; p2]) =
    Returned {| total := 2; successful := 1; rateLimited := 0; otherFailed := 1 |} /\
  0 <= 1 <= 2 /\ 0 <= 0 <= 2 /\ 0 <= 1 <= 2.
Proof.
  split; [reflexivity|].
  exact (X9_counters_in_range scenario token [p1; p2]
           {| total := 2; successful := 1; rateLimited := 0; otherFailed := 1 |} eq_refl).
Defined.

(** ** The history variant against the current script *)

Lemma history_disconnected_counted c :
  History145131.count_result c History145131.server_disconnected =
  Returned (add_other c).
Proof.
  unfold History145131.count_result.
  replace (Json.loads History145131.server_disconnected)
    with (Returned (Json.JObject
                      [("error",
                        Json.JObject
                          [("code", Json.JInt 500);
                           ("message",
                            Json.JString "Server Disconnected after multiple retries")])]))
    by (vm_compute; reflexivity).
  reflexivity.
Qed.

Lemma getitem_no_decode_error data k :
  Json.getitem data k <> Raised JSONDecodeError.
Proof.
  destruct data as [| | | | | |d]; try discriminate.
  cbn [Json.getitem]. destruct (Json.dict_get k d); discriminate.
Qed.

Lemma count_data_no_decode_error c data :
  count_data c data <> Raised JSONDecodeError.
Proof.
  unfold count_data.
  destruct (Json.py_in "error" data) as [[|]|e] eqn:Ein; cbn [bind].
  - destruct (Json.getitem data "error") as [error|e] eqn:E1; cbn [bind].
    + destruct (Json.getitem error "code") as [code|e] eqn:E2; cbn [bind].
      * destruct (Json.eq_429 code); discriminate.
      * intros [= ->]. now apply getitem_no_decode_error in E2.
    + intros [= ->]. now apply getitem_no_decode_error in E1.
  - discriminate.
  - destruct data; cbn in Ein; inversion Ein; discriminate.
Qed.

Lemma history_count_result_sum c body c' :
  History145131.count_result c body = Returned c' -> sum c' = sum c + 1.
Proof.
  unfold History145131.count_result.
  destruct (Json.loads body) as [data|e]; cbn [bind].
  - pose proof (count_data_no_decode_error c data) as Hne.
    destruct (count_data c data) as [c1|[]] eqn:E;
      cbn [except_JSONDecodeError]; try discriminate.
    + intros [= <-]. now apply count_data_sum in E.
    + now elim Hne.
  - destruct e; cbn [except_JSONDecodeError]; try discriminate.
    intros [= <-]. unfold sum; cbn; lia.
Qed.

Lemma counted_alike_refl body : counted_alike body body.
Proof.
  intros c c'. unfold IndexingScript.count_result, History145131.count_result.
  destruct (Json.loads body) as [data|]; cbn [bind]; try discriminate.
  now intros ->.
Qed.


(** What the history [send_url] returns is an answer of the network or its
    own 500 body. *)
Lemma history_send_url_returns session http url :
  exists body,
    fst (History145131.send_url session http url) = Returned body /\
    (body = History145131.server_disconnected \/ exists k, session k = Reply body).
Proof.
  unfold History145131.send_url. cbn [seq History145131.send_url_loop].
  destruct (session 0%nat) as [t0|[]] eqn:E0;
    try (eexists; split; [reflexivity|]; (left; reflexivity) || (right; eauto)).
  destruct (session 1%nat) as [t1|[]] eqn:E1;
    try (eexists; split; [reflexivity|]; (left; reflexivity) || (right; eauto)).
  destruct (session 2%nat) as [t2|[]] eqn:E2;
    (eexists; split; [reflexivity|]; (left; reflexivity) || (right; eauto)).
Qed.






Lemma history_count_results_sum results : forall c,
  Forall (fun body => forall c, exists c', History145131.count_result c body = Returned c')
         results ->
  exists c',
    History145131.count_results c results = Returned c' /\
    sum c' = sum c + Z.of_nat (length results).
Proof.
  induction results as [|r results IH]; intros c H.
  - exists c. split; [reflexivity|cbn; lia].
  - inversion H as [|? ? Hr Hrest]; subst.
    destruct (Hr c) as (c1 & E1).
    destruct (IH c1 Hrest) as (c' & E & Hsum).
    exists c'. cbn [History145131.count_results]. rewrite E1; cbn [bind].
    split; [exact E|].
    apply history_count_result_sum in E1. cbn [length]. lia.
Qed.

(** X11. The history variant always reports: whatever exceptions the
    network raises, when each body it answers is either of the expected
    shape or not JSON at all, [indexURL] of the variant of 14:51:31
    returns a tally whose total is the number of URLs and whose counters
    add up to it. *)
Theorem X11_history_always_reports (net : nat -> oracle) (http : string)
  (urls : list string) :
  (forall i k body,
      net i k = Reply body ->
      well_shaped body = true \/ Json.loads body = Raised JSONDecodeError) ->
  exists t,
    fst (History145131.indexURL net http urls) = Returned t /\
    total t = Z.of_nat (length urls) /\
    successful t + rateLimited t + otherFailed t = total t.
Proof.
  intros Hnet. unfold History145131.indexURL; cbn [fst].
  destruct (gather_returns
              (fun body => forall c, exists c', History145131.count_result c body = Returned c')
              (fun i url => History145131.send_url (net i) http url) urls 0%nat)
    as (results & Hg & Hall).
  { intros k url _. cbn.
    destruct (history_send_url_returns (net k) http url) as (body & Hb & Hsrc).
    exists body. split; [exact Hb|]. intros c.
    destruct Hsrc as [->|(j & Hj)].
    - eexists. apply history_disconnected_counted.
    - destruct (Hnet k j body Hj) as [Hshape|Hbad].
      + destruct (well_shaped_counted c body Hshape) as (c' & Hc').
        exists c'. now apply counted_alike_refl.
      + exists (add_other c). unfold History145131.count_result. now rewrite Hbad. }
  rewrite Hg; cbn [bind].
  destruct (history_count_results_sum results zero Hall) as (c & -> & Hsum).
  cbn [bind]. eexists. split; [reflexivity|].
  apply gather_length in Hg. rewrite length_map, enumerate_map_length in Hg.
  unfold sum in Hsum. cbn in *. lia.
Qed.

(** X11 for a network that answers the first URL with text that is not
    JSON and times out on the second. *)
Lemma X11_history_always_reports_witness :
  exists t,
    fst (History145131.indexURL
           (fun i => always (if (i =? 0)%nat then Reply "not json"
                             else Throw (Unexpected "TimeoutError")))
           token [p1; p2]) = Returned t /\
    total t = 2 /\
    successful t + rateLimited t + otherFailed t = total t.
Proof.
  apply (X11_history_always_reports
           (fun i => always (if (i =? 0)%nat then Reply "not json"
                             else Throw (Unexpected "TimeoutError")))
           token [p1; p2]).
  intros [|i] k body H; cbn in H.
  - inversion H; subst. right. reflexivity.
  - discriminate H.
Defined.

(** ** Further properties of [send_single_url] *)

Lemma attempt_success_iff ev :
  SingleUrlScript.attempt_body ev = Returned SingleUrlScript.Success <->
  exists body, ev = Reply body /\ no_error_body body.
Proof.
  split.
  - destruct ev as [body|e]; cbn [SingleUrlScript.attempt_body]; try discriminate.
    intros H. exists body. split; [reflexivity|].
    destruct (Json.loads body) as [data|] eqn:Hload; cbn [bind] in H; try discriminate.
    exists data. split; [exact Hload|].
    destruct (Json.py_in "error" data) as [[|]|]; cbn [bind] in H;
      try discriminate; trivial.
    destruct (Json.getitem data "error") as [error|]; cbn [bind] in H;
      try discriminate.
    destruct (Json.getitem error "message") as [msg|]; cbn [bind] in H;
      try discriminate.
    destruct (Json.getitem error "code") as [code|]; cbn [bind] in H;
      try discriminate.
    destruct (Json.eq_429 code); discriminate.
  - intros (body & -> & data & Hload & Hin).
    cbn [SingleUrlScript.attempt_body]. rewrite Hload; cbn [bind].
    now rewrite Hin.
Qed.

Lemma send_single_url_loop_result session r attempt rest :
  fst (SingleUrlScript.send_single_url_loop session r (attempt :: rest)) =
  match SingleUrlScript.attempt_body (session attempt) with
  | Returned SingleUrlScript.Success => Returned true
  | _ => fst (SingleUrlScript.send_single_url_loop session r rest)
  end.
Proof.
  cbn [SingleUrlScript.send_single_url_loop].
  destruct (SingleUrlScript.attempt_body (session attempt)) as [[| |]|e];
    try reflexivity;
    now destruct (SingleUrlScript.send_single_url_loop session r rest).
Qed.

(** X12. [send_single_url] never raises: whatever the network does it
    returns [True] or [False], after between one and three requests and
    at most 30 seconds of sleep. *)
Theorem X12_send_single_url_total (session : oracle) (http url : string) :
  (exists b, fst (SingleUrlScript.send_single_url session http url) = Returned b) /\
  (1 <= posts (snd (SingleUrlScript.send_single_url session http url)) <= 3)%nat /\
  0 <= total_sleep (snd (SingleUrlScript.send_single_url session http url)) <= 30.
Proof.
  unfold SingleUrlScript.send_single_url.
  cbn [seq SingleUrlScript.send_single_url_loop].
  destruct (SingleUrlScript.attempt_body (session 0%nat)) as [[| |]|[]];
    try (split; [eexists; reflexivity | cbn; lia]);
    (destruct (SingleUrlScript.attempt_body (session 1%nat)) as [[| |]|[]];
     try (split; [eexists; reflexivity | cbn; lia]);
     (destruct (SingleUrlScript.attempt_body (session 2%nat)) as [[| |]|[]];
      (split; [eexists; reflexivity | cbn; lia]))).
Qed.

(** X13. [send_single_url] returns [True] exactly when one of its three
    attempts is answered with a body in which no error is found; an error
    response of any kind before it, a rejection included, only delays
    it. *)
Theorem X13_send_single_url_succeeds_iff (session : oracle) (http url : string) :
  fst (SingleUrlScript.send_single_url session http url) = Returned true <->
  exists k body, (k < 3)%nat /\ session k = Reply body /\ no_error_body body.
Proof.
  unfold SingleUrlScript.send_single_url. cbn [seq].
  rewrite !send_single_url_loop_result. cbn [SingleUrlScript.send_single_url_loop fst].
  split.
  - intros H.
    destruct (SingleUrlScript.attempt_body (session 0%nat)) as [[| |]|e0] eqn:E0;
      try (apply attempt_success_iff in E0; destruct E0 as (b & Hb & Hn);
           exists 0%nat, b; repeat split; [lia|exact Hb|exact Hn]);
      (destruct (SingleUrlScript.attempt_body (session 1%nat)) as [[| |]|e1] eqn:E1;
       try (apply attempt_success_iff in E1; destruct E1 as (b & Hb & Hn);
            exists 1%nat, b; repeat split; [lia|exact Hb|exact Hn]);
       (destruct (SingleUrlScript.attempt_body (session 2%nat)) as [[| |]|e2] eqn:E2;
        try (apply attempt_success_iff in E2; destruct E2 as (b & Hb & Hn);
             exists 2%nat, b; repeat split; [lia|exact Hb|exact Hn]);
        discriminate H)).
  - intros (k & body & Hk & Hreply & Hbody).
    assert (Hs : SingleUrlScript.attempt_body (session k) =
                 Returned SingleUrlScript.Success).
    { apply attempt_success_iff. eauto. }
    destruct k as [|[|[|k]]]; try lia.
    + now rewrite Hs.
    + rewrite Hs.
      now destruct (SingleUrlScript.attempt_body (session 0%nat)) as [[| |]|].
    + rewrite Hs.
      destruct (SingleUrlScript.attempt_body (session 0%nat)) as [[| |]|];
        destruct (SingleUrlScript.attempt_body (session 1%nat)) as [[| |]|];
        reflexivity.
Qed.

(** X13 for a transport that answers a 403 and then a success body. *)
Lemma X13_send_single_url_succeeds_iff_witness :
  fst (SingleUrlScript.send_single_url
         (fun k => Reply (if (k =? 0)%nat then denied_body else success_body))
         token p1) = Returned true.
Proof.
  apply (X13_send_single_url_succeeds_iff
           (fun k => Reply (if (k =? 0)%nat then denied_body else success_body))
           token p1).
  exists 1%nat, success_body. split; [lia|]. split; [reflexivity|].
  eexists. split; vm_compute; reflexivity.
Defined.

(** X14. [send_single_url] retries what cannot succeed: when each of the
    three attempts is answered by an error body of a code other than 429
    or by text that is not JSON, it sends three requests, sleeps 2
    seconds after the first and after the second, and returns [False]. *)
Theorem X14_send_single_url_retries_rejections (session : oracle) (http url : string)
  (body : nat -> string) :
  (forall k, (k < 3)%nat -> session k = Reply (body k)) ->
  (forall k, (k < 3)%nat ->
             (exists n, n <> 429 /\ api_error_body n (body k)) \/
             Json.loads (body k) = Raised JSONDecodeError) ->
  SingleUrlScript.send_single_url session http url =
  (Returned false,
   let r := SingleUrlScript.post_request http url in
   [Post r; Sleep 2; Post r; Sleep 2; Post r]).
Proof.
  intros Hreply Hbody.
  assert (Hv : forall k, (k < 3)%nat ->
                 SingleUrlScript.attempt_body (session k) =
                   Returned SingleUrlScript.ErrorOther \/
                 SingleUrlScript.attempt_body (session k) = Raised JSONDecodeError).
  { intros k Hk. rewrite (Hreply k Hk). cbn [SingleUrlScript.attempt_body].
    destruct (Hbody k Hk) as [(n & Hn & d & e & msg & Hload & Herr & Hcode & Hmsg)|Hbad].
    - left. rewrite Hload; cbn [bind Json.py_in]. rewrite Herr; cbn [bind Json.getitem].
      rewrite Herr; cbn [bind Json.getitem]. rewrite Hmsg, Hcode; cbn [bind Json.eq_429].
      apply Z.eqb_neq in Hn. now rewrite Hn.
    - right. now rewrite Hbad. }
  unfold SingleUrlScript.send_single_url.
  cbn [seq SingleUrlScript.send_single_url_loop].
  destruct (Hv 0%nat ltac:(lia)) as [->| ->];
    (destruct (Hv 1%nat ltac:(lia)) as [->| ->];
     (destruct (Hv 2%nat ltac:(lia)) as [->| ->]; reflexivity)).
Qed.

(** X14 for a transport that always answers a 403. *)
Lemma X14_send_single_url_retries_rejections_witness :
  posts (snd (SingleUrlScript.send_single_url (always (Reply denied_body)) token p1))
  = 3%nat /\
  fst (SingleUrlScript.send_single_url (always (Reply denied_body)) token p1)
  = Returned false.
Proof.
  rewrite (X14_send_single_url_retries_rejections
             (always (Reply denied_body)) token p1 (fun _ => denied_body)).
  - split; reflexivity.
  - reflexivity.
  - intros k _. left. exists 403. split; [discriminate|].
    eexists _, _, _. repeat split; vm_compute; reflexivity.
Defined.

(** ** The command line of [backend/indexing_script.py] *)

Ltac io_steps :=
  cbn [iobind act ret lift try_except try_finally fst snd app truthy].

Ltac log_steps :=
  cbn [unlinked batches authentications waits flat_map app In].

(** [get_account_path] returns, and neither deletes a file, nor
    authenticates, nor submits. *)
Lemma get_account_path_returns w :
  exists found log,
    IndexingScript.get_account_path w = (Returned found, log) /\
    unlinked log = [] /\ batches log = [] /\ authentications log = [].
Proof.
  unfold IndexingScript.get_account_path.
  destruct (argv w) as [|a0 [|a1 [|a2 rest]]];
    try (eexists _, _; repeat split; reflexivity);
    (destruct (truthy (getenv w "GOOGLE_SERVICE_ACCOUNT_JSON")) as [env_json|];
     [|eexists _, _; repeat split; reflexivity];
     destruct (NamedTemporaryFile w) as [name|e]; io_steps;
     [|eexists _, _; repeat split; reflexivity];
     destruct (Json.loads env_json) as [data|e]; io_steps;
     eexists _, _; repeat split; reflexivity).
Qed.

(** X15. [main] deletes the service-account file named on the command
    line when its path starts with [/tmp] or contains [temp]: once the
    CSV file has been read, the [finally] block unlinks it, whether
    authentication and indexing succeeded or not. *)
Theorem X15_main_deletes_named_account_file (w : process)
  (prog csv_file account : string) (more urls : list string) :
  argv w = prog :: csv_file :: account :: more ->
  path_exists w csv_file = true ->
  read_csv w csv_file = Returned urls ->
  account <> "" ->
  (exists rest, account = "/tmp" ++ rest) \/ PyStr.contains "temp" account = true ->
  unlinked (snd (IndexingScript.main w)) = [account].
Proof.
  intros Hargv Hcsv Hread Hne Htemp.
  unfold IndexingScript.main, IndexingScript.get_account_path.
  rewrite Hargv, Hcsv. io_steps.
  destruct account as [|c account']; [now elim Hne|]. io_steps.
  rewrite Hread. io_steps.
  unfold IndexingScript.index_all, IndexingScript.setup_http_client,
    IndexingScript.run_indexURL, IndexingScript.cleanup.
  assert (Hcond :
            match PyStr.drop_prefix "/tmp" (String c account'),
                  PyStr.contains "temp" (String c account') with
            | None, false => False
            | _, _ => True
            end).
  { destruct Htemp as [(rest & ->)| ->].
    - cbn. exact I.
    - now destruct (PyStr.drop_prefix "/tmp" (String c account')). }
  destruct (PyStr.drop_prefix "/tmp" (String c account')) as [rest|];
    [|destruct (PyStr.contains "temp" (String c account')); [|now elim Hcond]];
    (destruct (access_token w (String c account')) as [http|e]; io_steps;
     [destruct (fst (IndexingScript.indexURL (network w 0%nat) http urls)) as [t|e];
      io_steps|];
     destruct (os_unlink w (String c account')) as [[]|e']; io_steps;
     reflexivity).
Qed.

(** X15 for a key file kept under [/tmp]. *)
Lemma X15_main_deletes_named_account_file_witness :
  unlinked (snd (IndexingScript.main cli)) = ["/tmp/key.json"].
Proof.
  apply (X15_main_deletes_named_account_file cli "indexing_script.py" "urls.csv"
           "/tmp/key.json" [] [p1; p2]); try reflexivity.
  - discriminate.
  - left. exists "/key.json". reflexivity.
Defined.

(** X16. The temporary key file made from the environment variable is
    left behind when the CSV file cannot be read: [main] creates it,
    writes the credentials to it and closes it, and returns before the
    [finally] block that would unlink it. *)
Theorem X16_main_leaves_temp_file (w : process) (prog csv_file env_json name : string)
  (data : Json.json) (e : exn) :
  argv w = [prog; csv_file] ->
  path_exists w csv_file = true ->
  getenv w "GOOGLE_SERVICE_ACCOUNT_JSON" = Some env_json ->
  Json.loads env_json = Returned data ->
  NamedTemporaryFile w = Returned name ->
  name <> "" ->
  read_csv w csv_file = Raised e ->
  IndexingScript.main w =
  (Returned tt,
   [CreateTemp name; Dump data name; CloseFile name;
    Say (IndexingScript.UsingAccountFile name);
    Say (IndexingScript.ErrorReadingCsv e)]).
Proof.
  intros Hargv Hcsv Henv Hload Htemp Hname Hread.
  unfold IndexingScript.main, IndexingScript.get_account_path.
  rewrite Hargv, Hcsv, Henv.
  destruct env_json as [|c env']; [discriminate Hload|].
  io_steps. rewrite Htemp. io_steps. rewrite Hload. io_steps.
  destruct name as [|c' name']; [now elim Hname|]. io_steps.
  rewrite Hread. reflexivity.
Qed.

(** X16 for an environment that holds [{}] and a CSV file that cannot be
    parsed. *)
Lemma X16_main_leaves_temp_file_witness :
  unlinked (snd (IndexingScript.main cli_env)) = [] /\
  In (CreateTemp "/tmp/tmpk3y9.json") (snd (IndexingScript.main cli_env)).
Proof.
  rewrite (X16_main_leaves_temp_file cli_env "indexing_script.py" "urls.csv" "{}"
             "/tmp/tmpk3y9.json" (Json.JObject []) (Unexpected "ParserError"));
    try reflexivity.
  - split; [reflexivity|]. left; reflexivity.
  - discriminate.
Defined.

Lemma cleanup_returns w account_file :
  exists log,
    IndexingScript.cleanup w account_file = (Returned tt, log) /\
    (unlinked log = [] \/ unlinked log = [account_file]) /\
    batches log = [] /\ authentications log = [].
Proof.
  unfold IndexingScript.cleanup.
  destruct (PyStr.drop_prefix "/tmp" account_file);
    destruct (PyStr.contains "temp" account_file);
    try (eexists; repeat split; try reflexivity; left; reflexivity);
    (destruct (os_unlink w account_file) as [[]|e]; io_steps;
     eexists; repeat split; try reflexivity; right; reflexivity).
Qed.

Lemma index_all_returns w account_file urls :
  exists log,
    IndexingScript.index_all w account_file urls = (Returned tt, log) /\
    (unlinked log = [] \/ unlinked log = [account_file]) /\
    (batches log = [] /\ is_returned (access_token w account_file) = false \/
     batches log = [urls] /\ is_returned (access_token w account_file) = true) /\
    authentications log = [account_file].
Proof.
  unfold IndexingScript.index_all.
  destruct (cleanup_returns w account_file) as (final & -> & Hunlink & Hbatch & Hauth).
  unfold IndexingScript.setup_http_client, IndexingScript.run_indexURL.
  destruct (access_token w account_file) as [http|e]; io_steps.
  - destruct (fst (IndexingScript.indexURL (network w 0%nat) http urls)) as [t|e];
      io_steps;
      (eexists; split; [reflexivity|]; log_steps;
       rewrite ?flat_map_app; fold (unlinked final) (batches final) (authentications final);
       log_steps; rewrite Hbatch, Hauth;
       repeat split; try reflexivity; auto).
  - eexists; split; [reflexivity|]; log_steps.
    fold (unlinked final) (batches final) (authentications final).
    rewrite Hbatch, Hauth. repeat split; try reflexivity; auto.
Qed.

(** X3 for a transport that disconnects once and then times out. *)
Lemma X3_send_url_raises_iff_witness :
  fst (IndexingScript.send_url
         (fun k => Throw (if (k =? 0)%nat then ServerDisconnectedError
                          else Unexpected "TimeoutError"))
         token p1) = Raised (Unexpected "TimeoutError").
Proof.
  apply (X3_send_url_raises_iff
           (fun k => Throw (if (k =? 0)%nat then ServerDisconnectedError
                            else Unexpected "TimeoutError"))
           token p1 (Unexpected "TimeoutError")).
  exists 1%nat. repeat split; [lia|discriminate|].
  intros [|j] Hj; [reflexivity|lia].
Defined.

(** What [main] does, in all its paths. *)
Lemma main_shape w :
  exists log,
    IndexingScript.main w = (Returned tt, log) /\
    (unlinked log = [] \/
     exists p, fst (IndexingScript.get_account_path w) = Returned (Some p) /\
               unlinked log = [p]) /\
    (batches log = [] \/
     exists csv_file urls p http,
       nth_error (argv w) 1 = Some csv_file /\
       path_exists w csv_file = true /\
       read_csv w csv_file = Returned urls /\
       fst (IndexingScript.get_account_path w) = Returned (Some p) /\
       access_token w p = Returned http /\
       authentications log = [p] /\
       batches log = [urls]).
Proof.
  unfold IndexingScript.main.
  destruct (argv w) as [|prog [|csv_file args]] eqn:Hargv;
    try (eexists; repeat split; left; reflexivity).
  destruct (path_exists w csv_file) eqn:Hcsv;
    [|eexists; repeat split; left; reflexivity].
  destruct (get_account_path_returns w) as (found & log0 & Hg & Hu0 & Hb0 & Ha0).
  rewrite Hg. io_steps.
  destruct found as [[|c p]|]; io_steps;
    try (eexists; split; [reflexivity|];
         unfold unlinked, batches; rewrite !flat_map_app;
         fold (unlinked log0) (batches log0); rewrite Hu0, Hb0;
         split; left; reflexivity).
  destruct (read_csv w csv_file) as [urls|e] eqn:Hread; io_steps.
  - destruct (index_all_returns w (String c p) urls)
      as (log1 & -> & Hu1 & Hb1 & Ha1).
    eexists; split; [reflexivity|].
    unfold unlinked, batches, authentications; rewrite !flat_map_app.
    fold (unlinked log0) (batches log0) (authentications log0).
    rewrite Hu0, Hb0, Ha0. log_steps.
    fold (unlinked log1) (batches log1) (authentications log1).
    split.
    + destruct Hu1 as [-> | ->]; [left; reflexivity|right].
      exists (String c p). split; reflexivity.
    + destruct Hb1 as [(-> & _)|(-> & Hok)]; [left; reflexivity|right].
      destruct (access_token w (String c p)) as [http|] eqn:Htok; [|discriminate Hok].
      exists csv_file, urls, (String c p), http.
      rewrite Ha1. repeat split; trivial.
  - eexists; split; [reflexivity|].
    unfold unlinked, batches; rewrite !flat_map_app.
    fold (unlinked log0) (batches log0); rewrite Hu0, Hb0.
    split; left; reflexivity.
Qed.

(** X17. [main] never raises, and the only file it ever deletes is the
    service-account file that [get_account_path] returned, at most
    once. *)
Theorem X17_main_never_raises (w : process) :
  exists log,
    IndexingScript.main w = (Returned tt, log) /\
    (unlinked log = [] \/
     exists p, fst (IndexingScript.get_account_path w) = Returned (Some p) /\
               unlinked log = [p]).
Proof.
  destruct (main_shape w) as (log & H & Hu & _). eauto.
Qed.

(** X18. [main] submits at most one batch, and when it does the batch
    is the list of URLs read from the CSV file named by the first
    argument, submitted after one successful authentication with the
    file that [get_account_path] returned. *)
Theorem X18_main_submits_the_csv (w : process) :
  batches (snd (IndexingScript.main w)) = [] \/
  exists csv_file urls p http,
    nth_error (argv w) 1 = Some csv_file /\
    path_exists w csv_file = true /\
    read_csv w csv_file = Returned urls /\
    fst (IndexingScript.get_account_path w) = Returned (Some p) /\
    access_token w p = Returned http /\
    authentications (snd (IndexingScript.main w)) = [p] /\
    batches (snd (IndexingScript.main w)) = [urls].
Proof.
  destruct (main_shape w) as (log & -> & _ & Hb). exact Hb.
Qed.

(** ** The accounts of the history variant *)

Lemma firstn_plus {A : Type} (a b : nat) (l : list A) :
  firstn (a + b) l = (firstn a l ++ firstn b (skipn a l))%list.
Proof.
  revert l; induction a as [|a IH]; intros [|x l]; cbn [Nat.add firstn skipn app];
    trivial.
  - now rewrite firstn_nil.
  - now rewrite IH.
Qed.

(** X19. The slices of the accounts partition the head of the list: the
    slices of the first [k] accounts, in order, are the first
    [k * URLS_PER_ACCOUNT] URLs, each once, and no slice is longer than
    [URLS_PER_ACCOUNT]. *)
Theorem X19_slices_partition (all_urls : list string) (k : nat) :
  flat_map (History145131.urls_for_account all_urls) (seq 0 k) =
  firstn (k * History145131.URLS_PER_ACCOUNT) all_urls /\
  (forall i, length (History145131.urls_for_account all_urls i)
             <= History145131.URLS_PER_ACCOUNT)%nat.
Proof.
  split.
  - induction k as [|k IH]; [reflexivity|].
    rewrite seq_S, flat_map_app, IH. cbn [flat_map Nat.add].
    rewrite app_nil_r. unfold History145131.urls_for_account.
    change (S k * History145131.URLS_PER_ACCOUNT)%nat
      with (History145131.URLS_PER_ACCOUNT + k * History145131.URLS_PER_ACCOUNT)%nat.
    rewrite (Nat.add_comm History145131.URLS_PER_ACCOUNT).
    now rewrite firstn_plus.
  - intros i. unfold History145131.urls_for_account. apply firstn_le_length.
Qed.

Lemma slice_empty_iff all_urls i :
  History145131.urls_for_account all_urls i = [] <->
  (length all_urls <= i * History145131.URLS_PER_ACCOUNT)%nat.
Proof.
  unfold History145131.urls_for_account. split.
  - intros H. apply (f_equal (@length string)) in H.
    rewrite length_firstn, length_skipn in H. cbn [length] in H.
    unfold History145131.URLS_PER_ACCOUNT in *. lia.
  - intros H. rewrite (skipn_all2 all_urls H). apply firstn_nil.
Qed.

Lemma slice_length all_urls i :
  (length (History145131.urls_for_account all_urls i) +
   length (skipn (S i * History145131.URLS_PER_ACCOUNT) all_urls) =
   length (skipn (i * History145131.URLS_PER_ACCOUNT) all_urls))%nat.
Proof.
  unfold History145131.urls_for_account.
  rewrite length_firstn, !length_skipn.
  change (S i * History145131.URLS_PER_ACCOUNT)%nat
    with (History145131.URLS_PER_ACCOUNT + i * History145131.URLS_PER_ACCOUNT)%nat.
  lia.
Qed.

Lemma history_count_result_grows c body c' :
  History145131.count_result c body = Returned c' ->
  successful_urls c <= successful_urls c' /\
  error_429_count c <= error_429_count c' /\
  other_errors_count c <= other_errors_count c'.
Proof.
  unfold History145131.count_result.
  destruct (Json.loads body) as [data|e]; cbn [bind].
  - pose proof (count_data_no_decode_error c data) as Hne.
    destruct (count_data c data) as [c1|[]] eqn:E;
      cbn [except_JSONDecodeError]; try discriminate.
    + intros [= <-]. now apply count_data_grows in E.
    + now elim Hne.
  - destruct e; cbn [except_JSONDecodeError]; try discriminate.
    intros [= <-]. cbn; lia.
Qed.

Lemma history_count_results_inv results : forall c c',
  History145131.count_results c results = Returned c' ->
  sum c' = sum c + Z.of_nat (length results) /\
  successful_urls c <= successful_urls c' /\
  error_429_count c <= error_429_count c' /\
  other_errors_count c <= other_errors_count c'.
Proof.
  induction results as [|r results IH]; cbn [History145131.count_results];
    intros c c' H.
  - inversion H; subst. cbn [length]. lia.
  - destruct (History145131.count_result c r) as [c1|] eqn:E; cbn [bind] in H;
      try discriminate.
    pose proof (history_count_result_sum _ _ _ E).
    pose proof (history_count_result_grows _ _ _ E).
    apply IH in H. cbn [length]. lia.
Qed.

(** Every tally the history [indexURL] returns. *)
Lemma history_tally net http urls t :
  fst (History145131.indexURL net http urls) = Returned t ->
  0 <= successful t /\ 0 <= rateLimited t /\ 0 <= otherFailed t /\
  successful t + rateLimited t + otherFailed t = Z.of_nat (length urls).
Proof.
  unfold History145131.indexURL; cbn [fst]. intros H.
  destruct (gather _) as [results|] eqn:G; cbn [bind] in H; try discriminate.
  destruct (History145131.count_results zero results) as [c|] eqn:C;
    cbn [bind] in H; try discriminate.
  inversion H; subst; clear H.
  apply history_count_results_inv in C.
  apply gather_length in G. rewrite length_map, enumerate_map_length in G.
  unfold sum in C. cbn in *. lia.
Qed.

(** The [try] statement of the loop: it returns, runs the batch when
    authentication succeeds, and adds at most the slice to the totals. *)
Lemma account_returns w num_accounts i urls totals :
  exists totals' log,
    History145131.account w num_accounts i urls totals = (Returned totals', log) /\
    batches log =
      (if is_returned (access_token w (History145131.key_file (S i)))
       then [urls] else []) /\
    unlinked log = [] /\
    (waits log = [] \/ Z.of_nat i < num_accounts - 1 /\ waits log = [5]) /\
    successful_urls totals <= successful_urls totals' /\
    error_429_count totals <= error_429_count totals' /\
    other_errors_count totals <= other_errors_count totals' /\
    sum totals' <= sum totals + Z.of_nat (length urls).
Proof.
  unfold History145131.account, History145131.setup_http_client,
    History145131.run_indexURL.
  destruct (access_token w (History145131.key_file (S i))) as [http|e]; io_steps.
  - destruct (fst (History145131.indexURL (network w i) http urls)) as [t|e] eqn:E;
      io_steps.
    + apply history_tally in E.
      destruct (Z.of_nat i <? num_accounts - 1) eqn:Hlast; io_steps;
        (eexists _, _; split; [reflexivity|]; log_steps;
         unfold sum, History145131.add_totals; cbn [successful_urls error_429_count
                                                    other_errors_count is_returned];
         repeat split; try reflexivity; try lia).
      * right. split; [now apply Z.ltb_lt|reflexivity].
      * left; reflexivity.
    + eexists _, _; split; [reflexivity|]; log_steps; cbn [is_returned].
      repeat split; try reflexivity; try lia. left; reflexivity.
  - eexists _, _; split; [reflexivity|]; log_steps; cbn [is_returned].
    repeat split; try reflexivity; try lia. left; reflexivity.
Qed.

Lemma no_account_usable w all_urls n : forall a,
  (length all_urls <= a * History145131.URLS_PER_ACCOUNT)%nat ->
  filter (account_usable w all_urls) (seq a n) = [].
Proof.
  induction n as [|n IH]; intros a Ha; [reflexivity|].
  cbn [seq filter]. unfold account_usable at 1.
  replace (a * History145131.URLS_PER_ACCOUNT <? length all_urls)%nat with false
    by (symmetry; apply Nat.ltb_ge; exact Ha).
  rewrite andb_false_r. apply IH.
  unfold History145131.URLS_PER_ACCOUNT in *. lia.
Qed.

Lemma few_waits (m : Z) n : forall a,
  (length (filter (fun i => (Z.of_nat i <? m)%Z) (seq a n)) <= Z.to_nat m - a)%nat.
Proof.
  induction n as [|n IH]; intros a; cbn [seq filter length]; [lia|].
  specialize (IH (S a)).
  destruct (Z.of_nat a <? m) eqn:E; cbn [length]; [|lia].
  apply Z.ltb_lt in E. lia.
Qed.

(** The loop of the history [main]. *)
Lemma accounts_loop w num_accounts all_urls n : forall a totals,
  exists totals' log,
    History145131.accounts w num_accounts all_urls (seq a n) totals
    = (Returned totals', log) /\
    batches log =
      map (History145131.urls_for_account all_urls)
          (filter (account_usable w all_urls) (seq a n)) /\
    unlinked log = [] /\
    Forall (fun s => s = 5) (waits log) /\
    (length (waits log)
     <= length (filter (fun i => (Z.of_nat i <? num_accounts - 1)%Z) (seq a n)))%nat /\
    successful_urls totals <= successful_urls totals' /\
    error_429_count totals <= error_429_count totals' /\
    other_errors_count totals <= other_errors_count totals' /\
    sum totals' <=
    sum totals +
    Z.of_nat (length (skipn (a * History145131.URLS_PER_ACCOUNT) all_urls)).
Proof.
  induction n as [|n IH]; intros a totals.
  - exists totals, []. cbn [seq History145131.accounts ret filter map].
    repeat split; try reflexivity; try lia. constructor.
  - cbn [seq History145131.accounts]. io_steps.
    destruct (path_exists w (History145131.key_file (S a))) eqn:Hfile.
    + destruct (History145131.urls_for_account all_urls a) as [|u us] eqn:Hslice.
      * (* the list is used up: break *)
        io_steps. apply slice_empty_iff in Hslice.
        exists totals. eexists. split; [reflexivity|]. log_steps.
        pose proof (no_account_usable w all_urls (S n) a Hslice) as Hnone.
        cbn [seq] in Hnone. rewrite Hnone. cbn [map length].
        repeat split; try reflexivity; try lia. constructor.
      * (* a batch *)
        io_steps.
        destruct (account_returns w num_accounts a (u :: us) totals)
          as (totals1 & log1 & Hacc & Hb1 & Hu1 & Hw1 & Hs1 & Hr1 & Ho1 & Hsum1).
        rewrite Hacc. io_steps.
        destruct (IH (S a) totals1)
          as (totals' & log' & Hrest & Hb & Hu & Hw5 & Hw & Hs & Hr & Ho & Hsum).
        rewrite Hrest. io_steps. exists totals'. eexists. split; [reflexivity|].
        unfold batches, unlinked, waits. cbn [flat_map app].
        rewrite !flat_map_app.
        fold (batches log1) (batches log') (unlinked log1) (unlinked log')
             (waits log1) (waits log').
        rewrite Hb1, Hu1, Hb, Hu.
        assert (Hnonempty : (a * History145131.URLS_PER_ACCOUNT <? length all_urls)%nat
                            = true).
        { apply Nat.ltb_lt.
          destruct (Nat.le_gt_cases (length all_urls)
                      (a * History145131.URLS_PER_ACCOUNT)) as [Hle|Hlt]; [|exact Hlt].
          apply slice_empty_iff in Hle. rewrite Hslice in Hle. discriminate Hle. }
        pose proof (slice_length all_urls a) as Hlen. rewrite Hslice in Hlen.
        assert (Hua : account_usable w all_urls a
                      = is_returned (access_token w (History145131.key_file (S a)))).
        { unfold account_usable.
          now rewrite Hfile, Hnonempty, andb_true_r, andb_true_l. }
        cbn [filter]. rewrite Hua.
        repeat split; try lia.
        -- destruct (is_returned (access_token w (History145131.key_file (S a))));
             cbn [app map]; now rewrite ?Hslice.
        -- apply Forall_app. split; [|exact Hw5].
           destruct Hw1 as [-> |(_ & ->)]; repeat constructor.
        -- rewrite length_app.
           destruct Hw1 as [-> |(Hlt & ->)]; cbn [length].
           ++ destruct (Z.of_nat a <? num_accounts - 1); cbn [length]; lia.
           ++ apply Z.ltb_lt in Hlt. rewrite Hlt. cbn [length]. lia.
    + (* no key file: continue *)
      io_steps.
      destruct (IH (S a) totals)
        as (totals' & log' & Hrest & Hb & Hu & Hw5 & Hw & Hs & Hr & Ho & Hsum).
      rewrite Hrest. io_steps. exists totals'. eexists. split; [reflexivity|]. log_steps.
      fold (batches log') (unlinked log') (waits log').
      assert (Hua : account_usable w all_urls a = false).
      { unfold account_usable. now rewrite Hfile. }
      cbn [filter]. rewrite Hua.
      pose proof (slice_length all_urls a) as Hlen.
      repeat split; try assumption; try lia.
      destruct (Z.of_nat a <? num_accounts - 1); cbn [length]; lia.
Qed.

(** The run of the history [main] once [data.csv] has been read. *)
Lemma history_main_shape w num_accounts all_urls :
  path_exists w "data.csv" = true ->
  read_csv w "data.csv" = Returned all_urls ->
  exists totals log rate,
    History145131.main w num_accounts =
    (Returned tt,
     (Say (History145131.Loaded (length all_urls)) :: log ++
      Say (History145131.FinalSummary (length all_urls) totals) :: map Say rate)%list) /\
    batches log =
      map (History145131.urls_for_account all_urls)
          (filter (account_usable w all_urls) (seq 0 (Z.to_nat num_accounts))) /\
    unlinked log = [] /\
    Forall (fun s => s = 5) (waits log) /\
    (length (waits log) <= Z.to_nat (num_accounts - 1))%nat /\
    0 <= successful_urls totals /\
    0 <= error_429_count totals /\
    0 <= other_errors_count totals /\
    sum totals <= Z.of_nat (length all_urls) /\
    rate = (if 0 <? successful_urls totals
            then [History145131.SuccessRate (successful_urls totals) (length all_urls)]
            else []).
Proof.
  intros Hcsv Hread. unfold History145131.main. rewrite Hcsv, Hread. io_steps.
  destruct (accounts_loop w num_accounts all_urls (Z.to_nat num_accounts) 0%nat zero)
    as (totals & log & Hloop & Hb & Hu & Hw5 & Hw & Hs & Hr & Ho & Hsum).
  rewrite Hloop. io_steps.
  cbn [successful_urls error_429_count other_errors_count zero] in Hs, Hr, Ho.
  cbn [Nat.mul skipn] in Hsum. unfold sum in Hsum at 2.
  cbn [successful_urls error_429_count other_errors_count zero] in Hsum.
  pose proof (few_waits (num_accounts - 1) (Z.to_nat num_accounts) 0%nat) as Hfew.
  exists totals, log.
  destruct (0 <? successful_urls totals) eqn:Hpos.
  - apply Z.ltb_lt in Hpos.
    destruct (length all_urls) as [|n] eqn:Hlen;
      [unfold sum in Hsum; cbn [Z.of_nat] in Hsum; lia|].
    cbn [History145131.success_rate]. io_steps.
    exists [History145131.SuccessRate (successful_urls totals) (S n)].
    split; [reflexivity|]. repeat split; try assumption; lia.
  - io_steps. exists []. split; [reflexivity|].
    repeat split; try assumption; lia.
Qed.

(** X20. Once [data.csv] has been read, the batches that the history
    [main] submits are, in order, the slices of the accounts below
    [num_accounts] whose key file exists, whose authentication succeeds
    and whose slice is not empty; the URLs of every other slice are
    submitted by no account. *)
Theorem X20_batches_of_the_accounts (w : process) (num_accounts : Z)
  (all_urls : list string) :
  path_exists w "data.csv" = true ->
  read_csv w "data.csv" = Returned all_urls ->
  batches (snd (History145131.main w num_accounts)) =
  map (History145131.urls_for_account all_urls)
      (filter (account_usable w all_urls) (seq 0 (Z.to_nat num_accounts))).
Proof.
  intros Hcsv Hread.
  destruct (history_main_shape w num_accounts all_urls Hcsv Hread)
    as (totals & log & rate & -> & Hb & _).
  cbn [snd]. unfold batches. cbn [flat_map app]. rewrite flat_map_app.
  fold (batches log). rewrite Hb. cbn [flat_map app].
  replace (flat_map _ (map Say rate)) with (@nil (list string));
    [now rewrite app_nil_r|].
  induction rate as [|l rate IH]; [reflexivity|exact IH].
Qed.

(** X20 for three accounts, the second without a key file, and 450 URLs:
    the first 200 and the last 50 are submitted. *)
Lemma X20_batches_of_the_accounts_witness :
  batches (snd (History145131.main multi 3)) =
  map (History145131.urls_for_account (repeat p1 450))
      (filter (account_usable multi (repeat p1 450)) (seq 0 (Z.to_nat 3))).
Proof.
  apply (X20_batches_of_the_accounts multi 3 (repeat p1 450)); reflexivity.
Defined.

(** X21. The history [main] always returns: no exception of the key
    files, of the authentication or of a batch leaves it, and the
    division of the success rate is never by zero.  It deletes no file,
    and it waits 5 seconds at a time, at most [num_accounts - 1]
    times. *)
Theorem X21_history_main_never_raises (w : process) (num_accounts : Z) :
  exists log,
    History145131.main w num_accounts = (Returned tt, log) /\
    unlinked log = [] /\
    Forall (fun s => s = 5) (waits log) /\
    (length (waits log) <= Z.to_nat (num_accounts - 1))%nat.
Proof.
  destruct (path_exists w "data.csv") eqn:Hcsv.
  - destruct (read_csv w "data.csv") as [all_urls|e] eqn:Hread.
    + destruct (history_main_shape w num_accounts all_urls Hcsv Hread)
        as (totals & log & rate & -> & _ & Hu & Hw5 & Hw & _).
      eexists. split; [reflexivity|].
      assert (Hrate_u : unlinked (map (@Say History145131.line) rate) = [])
        by (clear; induction rate as [|l rate IH]; [reflexivity|exact IH]).
      assert (Hrate_w : waits (map (@Say History145131.line) rate) = [])
        by (clear; induction rate as [|l rate IH]; [reflexivity|exact IH]).
      unfold unlinked, waits. cbn [flat_map app]. rewrite !flat_map_app.
      cbn [flat_map app].
      fold (unlinked log) (waits log)
        (unlinked (map (@Say History145131.line) rate))
        (waits (map (@Say History145131.line) rate)).
      rewrite Hu, Hrate_u, Hrate_w, !app_nil_r.
      repeat split; assumption.
    + unfold History145131.main. rewrite Hcsv, Hread. io_steps.
      eexists. split; [reflexivity|]. log_steps.
      repeat split; [constructor|cbn [length]; lia].
  - unfold History145131.main. rewrite Hcsv. io_steps.
    eexists. split; [reflexivity|]. log_steps.
    repeat split; [constructor|cbn [length]; lia].
Qed.

(** X22. The final summary of the history [main] reports the number of
    URLs read from [data.csv] as processed, whatever was submitted; its
    three totals are not negative and their sum is at most that number,
    and the success rate is printed exactly when some URL was
    successful. *)
Theorem X22_final_summary (w : process) (num_accounts : Z) (all_urls : list string) :
  path_exists w "data.csv" = true ->
  read_csv w "data.csv" = Returned all_urls ->
  exists totals log rate,
    snd (History145131.main w num_accounts) =
    (log ++ Say (History145131.FinalSummary (length all_urls) totals)
         :: map Say rate)%list /\
    0 <= successful_urls totals /\
    0 <= error_429_count totals /\
    0 <= other_errors_count totals /\
    sum totals <= Z.of_nat (length all_urls) /\
    rate = (if 0 <? successful_urls totals
            then [History145131.SuccessRate (successful_urls totals) (length all_urls)]
            else []).
Proof.
  intros Hcsv Hread.
  destruct (history_main_shape w num_accounts all_urls Hcsv Hread)
    as (totals & log & rate & -> & _ & _ & _ & _ & Hs & Hr & Ho & Hsum & Hrate).
  exists totals, (Say (History145131.Loaded (length all_urls)) :: log), rate.
  repeat split; assumption.
Qed.

(** X22 for the three accounts and 450 URLs of [multi]. *)
Lemma X22_final_summary_witness :
  exists totals log rate,
    snd (History145131.main multi 3) =
    (log ++ Say (History145131.FinalSummary 450 totals) :: map Say rate)%list /\
    0 <= successful_urls totals /\
    0 <= error_429_count totals /\
    0 <= other_errors_count totals /\
    sum totals <= 450 /\
    rate = (if 0 <? successful_urls totals
            then [History145131.SuccessRate (successful_urls totals) 450]
            else []).
Proof.
  exact (X22_final_summary multi 3 (repeat p1 450) eq_refl eq_refl).
Defined.

(** ** The [main] of the single-URL script *)

Lemma send_single_url_returns session http url :
  exists b, fst (SingleUrlScript.send_single_url session http url) = Returned b.
Proof.
  unfold SingleUrlScript.send_single_url. cbn [seq].
  rewrite !send_single_url_loop_result. cbn [SingleUrlScript.send_single_url_loop fst].
  destruct (SingleUrlScript.attempt_body (session 0%nat)) as [[| |]|e0];
    try (eexists; reflexivity);
    (destruct (SingleUrlScript.attempt_body (session 1%nat)) as [[| |]|e1];
     try (eexists; reflexivity);
     (destruct (SingleUrlScript.attempt_body (session 2%nat)) as [[| |]|e2];
      eexists; reflexivity)).
Qed.

(** X23. The [main] of the single-URL script always returns a boolean
    and deletes nothing.  It returns [True] exactly when [single_url.csv]
    exists and has a first row, [account1.json] exists, authentication
    with it succeeds and [send_single_url] returns [True] for that first
    row; the only URL it ever submits is the first row of the file, the
    other rows being ignored. *)
Theorem X23_single_main_reports (w : process) :
  exists success log,
    SingleUrlScript.main w = (Returned success, log) /\
    unlinked log = [] /\
    (success = true <->
     exists url rest http,
       path_exists w "single_url.csv" = true /\
       read_csv w "single_url.csv" = Returned (url :: rest) /\
       path_exists w "account1.json" = true /\
       access_token w "account1.json" = Returned http /\
       fst (SingleUrlScript.send_single_url (network w 0%nat 0%nat) http url)
       = Returned true) /\
    (batches log = [] \/
     exists url rest,
       read_csv w "single_url.csv" = Returned (url :: rest) /\
       batches log = [[url]]).
Proof.
  unfold SingleUrlScript.main.
  destruct (path_exists w "single_url.csv") eqn:Hcsv; io_steps.
  2:{ eexists _, _. split; [reflexivity|]. log_steps.
      repeat split; try (now left); try discriminate.
      intros (url & rest & http & H & _). discriminate H. }
  destruct (read_csv w "single_url.csv") as [[|url rest]|e] eqn:Hread;
    cbn [SingleUrlScript.iloc0]; io_steps.
  1,3: eexists _, _; (split; [reflexivity|]); log_steps;
       repeat split; try (now left); try discriminate;
       intros (url' & rest' & http & _ & H & _); discriminate H.
  destruct (path_exists w "account1.json") eqn:Hkey; io_steps.
  2:{ eexists _, _. split; [reflexivity|]. log_steps.
      repeat split; try (now left); try discriminate.
      intros (url' & rest' & http & _ & _ & H & _). discriminate H. }
  unfold SingleUrlScript.setup_http_client, SingleUrlScript.index_single_url.
  destruct (access_token w "account1.json") as [http|e] eqn:Htok; io_steps.
  2:{ eexists _, _. split; [reflexivity|]. log_steps.
      repeat split; try (now left); try discriminate.
      intros (url' & rest' & http & _ & _ & _ & H & _). discriminate H. }
  destruct (send_single_url_returns (network w 0%nat 0%nat) http url) as (b & Hb).
  rewrite Hb. io_steps.
  eexists _, _. split; [reflexivity|]. log_steps.
  repeat split.
  - intros ->. exists url, rest, http. repeat split; assumption || reflexivity.
  - intros (url' & rest' & http' & _ & Hr & _ & Ht & Hs).
    injection Hr as -> ->. injection Ht as ->. rewrite Hb in Hs.
    now injection Hs.
  - right. exists url, rest. split; reflexivity.
Qed.

(** ** The temporary key file *)

(** X24. With the credentials in the environment and the CSV file read,
    [main] deletes the temporary key file once, after the run and
    whatever authentication and indexing did, when the name that
    [NamedTemporaryFile] gave starts with [/tmp] or contains [temp]; a
    temporary file with any other name is never deleted. *)
Theorem X24_temp_key_file_cleanup (w : process) (prog csv_file env_json name : string)
  (data : Json.json) (urls : list string) :
  argv w = [prog; csv_file] ->
  path_exists w csv_file = true ->
  getenv w "GOOGLE_SERVICE_ACCOUNT_JSON" = Some env_json ->
  Json.loads env_json = Returned data ->
  NamedTemporaryFile w = Returned name ->
  name <> "" ->
  read_csv w csv_file = Returned urls ->
  unlinked (snd (IndexingScript.main w)) =
  match PyStr.drop_prefix "/tmp" name, PyStr.contains "temp" name with
  | None, false => []
  | _, _ => [name]
  end.
Proof.
  intros Hargv Hcsv Henv Hload Htemp Hname Hread.
  unfold IndexingScript.main, IndexingScript.get_account_path.
  rewrite Hargv, Hcsv, Henv.
  destruct env_json as [|c env']; [discriminate Hload|].
  io_steps. rewrite Htemp. io_steps. rewrite Hload. io_steps.
  destruct name as [|c' name']; [now elim Hname|]. io_steps.
  rewrite Hread. io_steps.
  unfold IndexingScript.index_all, IndexingScript.setup_http_client,
    IndexingScript.run_indexURL, IndexingScript.cleanup.
  destruct (PyStr.drop_prefix "/tmp" (String c' name')) as [rest|];
    [|destruct (PyStr.contains "temp" (String c' name'))];
    (destruct (access_token w (String c' name')) as [http|e]; io_steps;
     [destruct (fst (IndexingScript.indexURL (network w 0%nat) http urls)) as [t|e];
      io_steps|];
     try (destruct (os_unlink w (String c' name')) as [[]|e']; io_steps);
     reflexivity).
Qed.

(** X24 for a temporary directory under [/var/folders]: the key file
    stays. *)
Lemma X24_temp_key_file_cleanup_witness :
  unlinked (snd (IndexingScript.main cli_var)) = [].
Proof.
  apply (X24_temp_key_file_cleanup cli_var "indexing_script.py" "urls.csv" "{}"
           "/var/folders/T/tmpk3y9.json" (Json.JObject []) [p1; p2]);
    try reflexivity.
  discriminate.
Defined.
